(** * On This Day in Music: the request handler of [app.py]

    A shallow embedding of the Flask handler [index] and of
    [search_releases_for_date], with the part of Python they rely on, and the
    properties of the handler proved over it.

    Modelling conventions.
    - A Python [str] is a Rocq [string]; a character is a byte.  The builtins
      below are Python's on ASCII text (whitespace and decimal digits outside
      ASCII are treated as ordinary characters); the en dash of the messages is
      spelled by its three UTF-8 bytes.
    - A Python [int] is a [Z].
    - A decoded JSON document is a [value]; JSON numbers with a fraction are
      not represented.
    - An exception that leaves a function is the [Raised] result; what the
      handler does to the outside (one HTTP GET per year, one pause after each
      processed year) is recorded in the event trace of the [io] monad. *)

From Stdlib Require Import ZArith List String Ascii Bool Lia.
From Stdlib Require Import DecimalString DecimalZ DecimalPos.
From Stdlib Require Import Sorting.Sorted Sorting.Permutation.
Import ListNotations.

Local Open Scope string_scope.
Local Open Scope Z_scope.

(* ================================================================= *)
(** ** Python values and builtins *)

Module Py.

#[local] Set Warnings "-register-all".

(** What [json.loads] produces (and [None] for an absent attribute). *)
Inductive value : Type :=
| VNone
| VBool (b : bool)
| VInt (z : Z)
| VStr (s : string)
| VList (l : list value)
| VDict (kv : list (string * value)).

(** The exception classes the handler can meet.  [HTTPError] is
    [requests.HTTPError]; every class is a subclass of [Exception]. *)
Inductive exn_class : Type :=
| HTTPError | RequestException | JSONDecodeError
| AttributeError | TypeError | KeyError | ValueError.

(** A raised exception: its class and [str(e)]. *)
Record exn : Type := Exn { cls : exn_class; str_e : string }.

Inductive result (A : Type) : Type :=
| Ok (a : A)
| Raised (e : exn).
Arguments Ok {A} a.
Arguments Raised {A} e.

Definition is_HTTPError (e : exn) : bool :=
  match cls e with HTTPError => true | _ => false end.

(** [bool(v)] *)
Definition truthy (v : value) : bool :=
  match v with
  | VNone => false
  | VBool b => b
  | VInt z => negb (z =? 0)
  | VStr s => negb (s =? "")%string
  | VList l => match l with [] => false | _ => true end
  | VDict kv => match kv with [] => false | _ => true end
  end.

(** [a or b] *)
Definition or_ (a b : value) : value := if truthy a then a else b.

(** [bool(s)] for a [str]. *)
Definition str_truthy (s : string) : bool := negb (s =? "")%string.

(** [bool(x)] for a variable that holds [None] or a [str]. *)
Definition opt_truthy (x : option string) : bool :=
  match x with None => false | Some s => str_truthy s end.

Definition type_name (v : value) : string :=
  match v with
  | VNone => "NoneType"
  | VBool _ => "bool"
  | VInt _ => "int"
  | VStr _ => "str"
  | VList _ => "list"
  | VDict _ => "dict"
  end.

Fixpoint lookup (k : string) (kv : list (string * value)) : option value :=
  match kv with
  | [] => None
  | (k', v) :: kv' => if (k =? k')%string then Some v else lookup k kv'
  end.

(** [v.get(k, default)]: only a dict has the method. *)
Definition get (v : value) (k : string) (default : value) : result value :=
  match v with
  | VDict kv => Ok (match lookup k kv with Some x => x | None => default end)
  | _ => Raised (Exn AttributeError
                   ("'" ++ type_name v ++ "' object has no attribute 'get'"))
  end.

Definition is_list (v : value) : bool :=
  match v with VList _ => true | _ => false end.

(** [sub in s] for two strings. *)
Definition substring_of (sub s : string) : bool :=
  match String.index 0 sub s with Some _ => true | None => false end.

Definition str_eqb (k : string) (v : value) : bool :=
  match v with VStr s => (k =? s)%string | _ => false end.

(** [k in v] for a string [k]: key of a dict, substring of a str, element of
    a list (only a str equals a str); other values are not iterable. *)
Definition contains (k : string) (v : value) : result bool :=
  match v with
  | VDict kv => Ok (match lookup k kv with Some _ => true | None => false end)
  | VStr s => Ok (substring_of k s)
  | VList l => Ok (existsb (str_eqb k) l)
  | _ => Raised (Exn TypeError
                   ("argument of type '" ++ type_name v ++ "' is not iterable"))
  end.

(** [v[k]] for a string [k]. *)
Definition getitem (v : value) (k : string) : result value :=
  match v with
  | VDict kv =>
      match lookup k kv with
      | Some x => Ok x
      | None => Raised (Exn KeyError ("'" ++ k ++ "'"))
      end
  | VStr _ => Raised (Exn TypeError "string indices must be integers")
  | VList _ => Raised (Exn TypeError "list indices must be integers or slices, not str")
  | _ => Raised (Exn TypeError
                   ("'" ++ type_name v ++ "' object is not subscriptable"))
  end.

(** The items a [for] loop visits. *)
Definition iter (v : value) : result (list value) :=
  match v with
  | VList l => Ok l
  | VDict kv => Ok (map (fun p => VStr (fst p)) kv)
  | VStr s => Ok (map (fun c => VStr (String c "")) (list_ascii_of_string s))
  | _ => Raised (Exn TypeError
                   ("'" ++ type_name v ++ "' object is not iterable"))
  end.

(** [str(n)] for an int, as [str], an f-string and the template write it.
    CPython 3.11 and later refuse to write an int of more than
    [int_max_str_digits] digits (the default of [sys.set_int_max_str_digits])
    and raise [ValueError]; [str_of_int] is the text below that limit, and
    the limit itself is [str_writable].  There [int] has the same limit on
    what it reads, so a year of the form is within it, as is a year of the
    clock; the span of two such years need not be, and the statements that
    depend on a span being written say so. *)
Definition str_of_int (n : Z) : string := NilZero.string_of_int (Z.to_int n).

Definition int_max_str_digits : Z := 4300.

(** The number of digits of [n], its sign apart. *)
Definition decimal_digits (n : Z) : Z :=
  Z.of_nat (String.length (str_of_int (Z.abs n))).

(** [str(n)] does not raise. *)
Definition str_writable (n : Z) : bool :=
  decimal_digits n <=? int_max_str_digits.

(** *** Characters *)

Definition code (c : ascii) : nat := nat_of_ascii c.

Definition is_digit (c : ascii) : bool :=
  (48 <=? code c)%nat && (code c <=? 57)%nat.

Definition digit_value (c : ascii) : Z := Z.of_nat (code c) - 48.

(** [str.isspace] on ASCII: tab to carriage return, the four separators
    FS, GS, RS, US, and the space. *)
Definition is_space (c : ascii) : bool :=
  ((9 <=? code c)%nat && (code c <=? 13)%nat)
  || ((28 <=? code c)%nat && (code c <=? 32)%nat).

Fixpoint lstrip (l : list ascii) : list ascii :=
  match l with
  | c :: l' => if is_space c then lstrip l' else l
  | [] => []
  end.

Definition rstrip (l : list ascii) : list ascii := rev (lstrip (rev l)).

(** [s.strip()] *)
Definition strip (s : string) : string :=
  string_of_list_ascii (rstrip (lstrip (list_ascii_of_string s))).

(** [s[n:]] *)
Definition slice_from (n : nat) (s : string) : string :=
  string_of_list_ascii (skipn n (list_ascii_of_string s)).

(** *** [int(s)] in base ten

    Surrounding whitespace is dropped, one sign is allowed, then digits, with
    single underscores allowed between digits.  [None] is [ValueError].
    (CPython's limit on the number of digits of the literal is not modelled.) *)

(** The digits of a literal, most significant first, read with the
    accumulator [acc]; [after_digit] says whether the previous character was a
    digit, which is where an underscore or the end may come. *)
Fixpoint int_digits (l : list ascii) (acc : Z) (after_digit : bool) : option Z :=
  match l with
  | [] => if after_digit then Some acc else None
  | c :: l' =>
      if is_digit c then int_digits l' (10 * acc + digit_value c) true
      else if (code c =? 95)%nat   (* underscore *)
      then if after_digit then int_digits l' acc false else None
      else None
  end.

Definition int (s : string) : option Z :=
  match rstrip (lstrip (list_ascii_of_string s)) with
  | [] => None
  | c :: l =>
      if (code c =? 45)%nat        (* minus *)
      then option_map Z.opp (int_digits l 0 false)
      else if (code c =? 43)%nat   (* plus *)
      then int_digits l 0 false
      else int_digits (c :: l) 0 false
  end.

(** *** [repr] and [str] *)

Definition quote : ascii := ascii_of_nat 39.
Definition dquote : ascii := ascii_of_nat 34.
Definition backslash : ascii := ascii_of_nat 92.

Definition hex_digit (n : nat) : ascii :=
  if (n <? 10)%nat then ascii_of_nat (48 + n) else ascii_of_nat (87 + n).

Definition has_char (c : ascii) (s : string) : bool :=
  existsb (Ascii.eqb c) (list_ascii_of_string s).

(** One character of a string inside the quotes [q] of its [repr]. *)
Definition repr_char (q c : ascii) : string :=
  if Ascii.eqb c q || Ascii.eqb c backslash then String backslash (String c "")
  else if (code c =? 9)%nat then String backslash "t"
  else if (code c =? 10)%nat then String backslash "n"
  else if (code c =? 13)%nat then String backslash "r"
  else if (code c <? 32)%nat || (code c =? 127)%nat
  then String backslash
         (String "x" (String (hex_digit (code c / 16))
                        (String (hex_digit (code c mod 16)) "")))
  else String c "".

(** [repr(s)]: single quotes, unless the string holds a single quote and no
    double quote. *)
Definition repr_str (s : string) : string :=
  let q := if has_char quote s && negb (has_char dquote s) then dquote else quote in
  String q (String.concat "" (map (repr_char q) (list_ascii_of_string s))
            ++ String q "").

Fixpoint repr (v : value) : string :=
  match v with
  | VNone => "None"
  | VBool b => if b then "True" else "False"
  | VInt z => str_of_int z
  | VStr s => repr_str s
  | VList l => "[" ++ String.concat ", " (map repr l) ++ "]"
  | VDict kv =>
      "{" ++ String.concat ", "
               (map (fun p => repr_str (fst p) ++ ": " ++ repr (snd p)) kv)
      ++ "}"
  end.

(** [str(v)], which an f-string applies to the value it formats. *)
Definition str (v : value) : string :=
  match v with VStr s => s | _ => repr v end.

(** *** Comparison *)

(** The number a [bool] or an [int] stands for. *)
Definition as_number (v : value) : option Z :=
  match v with
  | VBool b => Some (if b then 1 else 0)
  | VInt z => Some z
  | _ => None
  end.

(** [a == b]; a dict holds each key once. *)
Fixpoint eqb (a b : value) : bool :=
  match a, b with
  | VNone, VNone => true
  | VStr s, VStr t => (s =? t)%string
  | VList la, VList lb =>
      (fix all2 (la lb : list value) : bool :=
         match la, lb with
         | [], [] => true
         | x :: la', y :: lb' => eqb x y && all2 la' lb'
         | _, _ => false
         end) la lb
  | VDict ka, VDict kb =>
      (List.length ka =? List.length kb)%nat
      && (fix each (ka : list (string * value)) : bool :=
            match ka with
            | [] => true
            | (k, v) :: ka' =>
                match lookup k kb with
                | Some v' => eqb v v'
                | None => false
                end && each ka'
            end) ka
  | _, _ =>
      match as_number a, as_number b with
      | Some x, Some y => x =? y
      | _, _ => false
      end
  end.

Definition not_supported (a b : value) : exn :=
  Exn TypeError ("'<' not supported between instances of '" ++ type_name a
                 ++ "' and '" ++ type_name b ++ "'").

(** [a < b]: numbers by value, strings by code point, lists at the first
    index where they differ. *)
Fixpoint ltb (a b : value) : result bool :=
  match a, b with
  | VStr s, VStr t => Ok (String.ltb s t)
  | VList la, VList lb =>
      (fix first_diff (la lb : list value) : result bool :=
         match la, lb with
         | [], [] => Ok false
         | [], _ :: _ => Ok true
         | _ :: _, [] => Ok false
         | x :: la', y :: lb' => if eqb x y then first_diff la' lb' else ltb x y
         end) la lb
  | _, _ =>
      match as_number a, as_number b with
      | Some x, Some y => Ok (x <? y)
      | _, _ => Raised (not_supported a b)
      end
  end.

(** *** [datetime] *)

Record datetime : Type := Datetime { year : Z; month : Z; day : Z }.

Definition is_leap (y : Z) : bool :=
  (y mod 4 =? 0) && (negb (y mod 100 =? 0) || (y mod 400 =? 0)).

Definition days_in_month (y m : Z) : Z :=
  match m with
  | 2 => if is_leap y then 29 else 28
  | 4 | 6 | 9 | 11 => 30
  | _ => 31
  end.

(** The alternatives of the directive [%m], in the order the pattern
    [1[0-2]|0[1-9]|[1-9]] tries them: each one that matches at the head
    of [l], with the rest of the input. *)
Definition month_alternatives (l : list ascii) : list (Z * list ascii) :=
  match l with
  | c1 :: l1 =>
      (match l1 with
       | c2 :: l2 =>
           (if (code c1 =? 49)%nat && is_digit c2 && (code c2 <=? 50)%nat
            then [(10 + digit_value c2, l2)] else [])
           ++ (if (code c1 =? 48)%nat && is_digit c2 && negb (code c2 =? 48)%nat
               then [(digit_value c2, l2)] else [])
       | [] => []
       end
       ++ (if is_digit c1 && negb (code c1 =? 48)%nat
           then [(digit_value c1, l1)] else []))%list
  | [] => []
  end.

(** The same for [%d]: [3[0-1]|[1-2]\d|0[1-9]|[1-9]| [1-9]]. *)
Definition day_alternatives (l : list ascii) : list (Z * list ascii) :=
  match l with
  | c1 :: l1 =>
      (match l1 with
       | c2 :: l2 =>
           (if (code c1 =? 51)%nat && is_digit c2 && (code c2 <=? 49)%nat
            then [(30 + digit_value c2, l2)] else [])
           ++ (if ((code c1 =? 49)%nat || (code c1 =? 50)%nat) && is_digit c2
               then [(10 * digit_value c1 + digit_value c2, l2)] else [])
           ++ (if (code c1 =? 48)%nat && is_digit c2 && negb (code c2 =? 48)%nat
               then [(digit_value c2, l2)] else [])
       | [] => []
       end
       ++ (if is_digit c1 && negb (code c1 =? 48)%nat
           then [(digit_value c1, l1)] else [])
       ++ match l1 with
          | c2 :: l2 =>
              if (code c1 =? 32)%nat && is_digit c2 && negb (code c2 =? 48)%nat
              then [(digit_value c2, l2)] else []
          | [] => []
          end)%list
  | [] => []
  end.

(** A hyphen, then the first alternative of the day. *)
Definition hyphen_day (l : list ascii) : option (Z * list ascii) :=
  match l with
  | c :: l' => if (code c =? 45)%nat then hd_error (day_alternatives l') else None
  | [] => None
  end.

(** The first alternative of the month after which the rest of the pattern
    matches. *)
Fixpoint first_month (alts : list (Z * list ascii)) : option (Z * Z * list ascii) :=
  match alts with
  | [] => None
  | (m, l) :: alts' =>
      match hyphen_day l with
      | Some (d, rest) => Some (m, d, rest)
      | None => first_month alts'
      end
  end.

(** [datetime.strptime(s, "%Y-%m-%d")]; [None] is [ValueError].  The input
    must match the pattern from its start (four digits, a hyphen, a month, a
    hyphen, a day), nothing may remain after the match, and the fields must
    name a day of the calendar of the years 1 to 9999. *)
Definition strptime (s : string) : option datetime :=
  match list_ascii_of_string s with
  | y1 :: y2 :: y3 :: y4 :: h :: l =>
      if is_digit y1 && is_digit y2 && is_digit y3 && is_digit y4
         && (code h =? 45)%nat
      then
        match first_month (month_alternatives l) with
        | Some (m, d, []) =>
            let y := 1000 * digit_value y1 + 100 * digit_value y2
                     + 10 * digit_value y3 + digit_value y4 in
            if (1 <=? y) && (d <=? days_in_month y m)
            then Some (Datetime y m d) else None
        | _ => None
        end
      else None
  | _ => None
  end.

Definition month_name (m : Z) : string :=
  match m with
  | 1 => "January" | 2 => "February" | 3 => "March" | 4 => "April"
  | 5 => "May" | 6 => "June" | 7 => "July" | 8 => "August"
  | 9 => "September" | 10 => "October" | 11 => "November" | _ => "December"
  end.

Definition digit_char (n : Z) : ascii := ascii_of_nat (48 + Z.to_nat n).

(** A number below 100 in two digits. *)
Definition two_digits (n : Z) : string :=
  String (digit_char (n / 10)) (String (digit_char (n mod 10)) "").

(** [dt.strftime("%B %d")] in the C locale. *)
Definition strftime_B_d (dt : datetime) : string :=
  month_name (month dt) ++ " " ++ two_digits (day dt).

(** [dt.strftime("%Y-%m-%d")] for a year of four digits. *)
Definition strftime_Y_m_d (dt : datetime) : string :=
  two_digits (year dt / 100) ++ two_digits (year dt mod 100)
  ++ "-" ++ two_digits (month dt) ++ "-" ++ two_digits (day dt).

End Py.

Import Py.

(* ================================================================= *)
(** ** Effects: the event trace *)

(** The mapping arguments of [requests.get] are association lists. *)
Record http_request : Type := Request {
  url : string;
  params : list (string * string);
  headers : list (string * string);
  timeout : Z                                  (* seconds *)
}.

(** What the code reads of a [requests.Response]. *)
Record response : Type := Response {
  raise_for_status : result unit;
  json : result value
}.

Inductive event : Type :=
| Get (r : http_request)       (* requests.get(...) *)
| Sleep (milliseconds : Z).    (* time.sleep(...) *)

(** A computation: the events it performed, in order, and how it ended. *)
Definition io (A : Type) : Type := (list event * result A)%type.

Definition ret {A} (a : A) : io A := ([], Ok a).

Definition bind {A B} (m : io A) (k : A -> io B) : io B :=
  match m with
  | (t, Ok a) => let (t', r) := k a in ((t ++ t')%list, r)
  | (t, Raised e) => (t, Raised e)
  end.

Definition emit (ev : event) : io unit := ([ev], Ok tt).

(** A pure step that may raise. *)
Definition lift {A} (r : result A) : io A := ([], r).

(** [try: m] with the handlers applied by the caller: the exception, if
    any, is handed over as a value. *)
Definition attempt {A} (m : io A) : io (result A) := (fst m, Ok (snd m)).

Definition rbind {A B} (r : result A) (k : A -> result B) : result B :=
  match r with
  | Ok a => k a
  | Raised e => Raised e
  end.

Declare Scope io_scope.
Delimit Scope io_scope with io.
Notation "x <- m ;; k" := (bind m (fun x => k))
  (at level 61, m at next level, right associativity) : io_scope.
Notation "m ;; k" := (bind m (fun _ => k))
  (at level 61, right associativity) : io_scope.
Notation "x <~ r ;; k" := (rbind r (fun x => k))
  (at level 61, r at next level, right associativity) : io_scope.
Local Open Scope io_scope.

(* ================================================================= *)
(** ** app.py *)

Definition API_BASE : string := "https://musicbrainz.org/ws/2/release".
Definition USER_AGENT : string := "EricMusicDateFinder/1.0 (eric.s.jaffe@gmail.com)".
Definition MAX_YEARS_PER_REQUEST : Z := 25.

(** U+2013, as UTF-8. *)
Definition en_dash : string :=
  String (ascii_of_nat 226) (String (ascii_of_nat 128) (String (ascii_of_nat 147) "")).

(** The object built with [type("Release", (object,), {...})]. *)
Record Release : Type := mkRelease {
  r_year : Z;
  r_title : value;
  r_artist : value;
  r_date : value;
  r_url : value
}.

(** [request.method] and [request.form]. *)
Inductive request : Type :=
| GET
| POST (form : list (string * string)).

(** [request.form.get(k, "")] *)
Fixpoint form_get (form : list (string * string)) (k : string) : string :=
  match form with
  | [] => ""
  | (k', v) :: form' => if (k =? k')%string then v else form_get form' k
  end.

(** The variables handed to the template. *)
Record context : Type := Context {
  error : option string;
  results : option (list Release);
  date_value : string;
  start_year : Z;
  end_year : Z;
  pretty_date : string;
  current_year : Z
}.

(** [range(a, b)] *)
Definition range (a b : Z) : list Z :=
  map (fun i => a + Z.of_nat i) (seq 0 (Z.to_nat (b - a))).

(** [(error + " | " if error else "") + msg] *)
Definition append_error (error : option string) (msg : string) : string :=
  (if opt_truthy error
   then match error with Some e => e ++ " | " | None => "" end
   else "") ++ msg.

(** Lines 197-203: the date. Returns [error], [mm_dd] and [pretty_date]. *)
Definition parse_date (error : option string) (date_value pretty_date : string)
  : option string * option string * string :=
  match strptime date_value with
  | Some _dt => (error, Some (slice_from 5 date_value), strftime_B_d _dt)
  | None => (Some "Invalid date. Please use the date picker.", None, pretty_date)
  end.

(** [int(s) if s else default] *)
Definition year_field (s : string) (default : Z) : option Z :=
  if str_truthy s then int s else Some default.

(** Lines 206-210, the body of the [try]: [None] is [ValueError]. *)
Definition read_years (start_str end_str : string) (current_year : Z)
  : option (Z * Z) :=
  match year_field start_str 1990 with
  | Some start_year =>
      match year_field end_str current_year with
      | Some end_year =>
          if end_year <? start_year
          then Some (end_year, start_year)
          else Some (start_year, end_year)
      | None => None
      end
  | None => None
  end.

(** Lines 205-214: the years. Returns [error], [start_year], [end_year]. *)
Definition parse_years (error : option string) (start_str end_str : string)
    (current_year : Z) : option string * Z * Z :=
  match read_years start_str end_str current_year with
  | Some (start_year, end_year) => (error, start_year, end_year)
  | None =>
      (Some (append_error error "Start/end year must be numbers."),
       1990, current_year)
  end.

Definition clamp_warning (year_span start_year end_year current_year : Z) : string :=
  "Year range too large (" ++ str_of_int year_span ++ " years). "
  ++ "Showing only " ++ str_of_int start_year ++ en_dash ++ str_of_int end_year ++ ". "
  ++ "Try smaller chunks like 1990" ++ en_dash ++ "2010, then 2011" ++ en_dash
  ++ str_of_int current_year ++ ".".

(** Lines 218-228: the clamp. Returns [error] and [end_year]. *)
Definition clamp_range (error : option string) (start_year end_year current_year : Z)
  : option string * Z :=
  let year_span := end_year - start_year + 1 in
  if MAX_YEARS_PER_REQUEST <? year_span
  then
    let end_year := start_year + MAX_YEARS_PER_REQUEST - 1 in
    let end_year := if current_year <? end_year then current_year else end_year in
    (Some (append_error error
             (clamp_warning year_span start_year end_year current_year)),
     end_year)
  else (error, end_year).

(** Lines 242-260: the record of one entry of the catalog's answer. *)
Definition release_of (year : Z) (r : value) : result Release :=
  title <~ get r "title" VNone ;;
  date <~ get r "date" VNone ;;
  ac <~ get r "artist-credit" VNone ;;
  let ac := or_ ac (VList []) in
  artist <~ (if truthy ac && is_list ac
             then match ac with
                  | VList (ac0 :: _) =>
                      has_name <~ contains "name" ac0 ;;
                      if has_name then getitem ac0 "name" else Ok VNone
                  | _ => Ok VNone
                  end
             else Ok VNone) ;;
  mbid <~ get r "id" VNone ;;
  let url := if truthy mbid
             then VStr ("https://musicbrainz.org/release/" ++ str mbid)
             else VNone in
  Ok (mkRelease year title artist date url).

(** Lines 241-260: the inner loop, appending to [results]. *)
Fixpoint collect (year : Z) (releases : list value) (results : list Release)
  : result (list Release) :=
  match releases with
  | [] => Ok results
  | r :: releases' =>
      x <~ release_of year r ;;
      collect year releases' (results ++ [x])%list
  end.

(** The key of [results.sort]. *)
Definition sort_key (x : Release) : Z * value * value :=
  (r_year x, or_ (r_artist x) (VStr ""), or_ (r_title x) (VStr "")).

(** [a < b] on the key tuples: the first components that differ decide. *)
Definition tuple_lt (a b : Z * value * value) : result bool :=
  let '(y1, a1, t1) := a in
  let '(y2, a2, t2) := b in
  if negb (y1 =? y2) then Ok (y1 <? y2)
  else if negb (eqb a1 a2) then ltb a1 a2
  else if negb (eqb t1 t2) then ltb t1 t2
  else Ok false.

(** [list.sort] is stable and compares with [<] only; on keys that [<] orders
    its result is the one of this insertion sort, which puts an element
    before the first later one that is not below it. *)
Fixpoint insert (x : Release) (l : list Release) : result (list Release) :=
  match l with
  | [] => Ok [x]
  | y :: l' =>
      below <~ tuple_lt (sort_key y) (sort_key x) ;;
      if below
      then l'' <~ insert x l' ;; Ok (y :: l'')
      else Ok (x :: l)
  end.

Fixpoint list_sort (l : list Release) : result (list Release) :=
  match l with
  | [] => Ok []
  | x :: l' => s <~ list_sort l' ;; insert x s
  end.

(** Lines 265-267. *)
Definition sort_results (results : list Release) : result (list Release) :=
  match results with
  | [] => Ok results
  | _ :: _ => list_sort results
  end.

Section Handler.

(** The catalog, behind [requests.get]; and the clock, read twice. *)
Variable requests_get : http_request -> result response.
Variable now1 now2 : datetime.

(** Lines 156-175. *)
Definition search_releases_for_date (year : Z) (mm_dd : string) (limit : Z)
  : io value :=
  let ymd := str_of_int year ++ "-" ++ mm_dd in
  let params := [("query", "date:" ++ ymd); ("fmt", "json");
                 ("limit", str_of_int limit)] in
  let headers := [("User-Agent", USER_AGENT)] in
  let req := Request API_BASE params headers 30 in
  emit (Get req) ;;
  resp <- lift (requests_get req) ;;
  lift (raise_for_status resp) ;;
  data <- lift (json resp) ;;
  lift (get data "releases" (VList [])).

(** Lines 231-263: the loop over the years; an exception of the search ends
    it, with the records of the years before. *)
Fixpoint fetch_years (mm_dd : string) (years : list Z)
    (results : list Release) (error : option string)
  : io (list Release * option string) :=
  match years with
  | [] => ret (results, error)
  | year :: years' =>
      searched <- attempt (search_releases_for_date year mm_dd 50) ;;
      match searched with
      | Raised e =>
          if is_HTTPError e
          then ret (results,
                    Some ("HTTP error for year " ++ str_of_int year ++ ": " ++ str_e e))
          else ret (results,
                    Some ("Error for year " ++ str_of_int year ++ ": " ++ str_e e))
      | Ok releases =>
          items <- lift (iter releases) ;;
          results <- lift (collect year items results) ;;
          emit (Sleep 100) ;;
          fetch_years mm_dd years' results error
      end
  end.

(** Lines 179-278. *)
Definition index (req : request) : io context :=
  let error := None in
  let results := None in
  let current_year := year now1 in
  let date_value := strftime_Y_m_d now2 in
  let start_year := 1990 in
  let end_year := current_year in
  let pretty_date := "" in
  match req with
  | GET =>
      ret (Context error results date_value start_year end_year pretty_date
             current_year)
  | POST form =>
      let date_value := strip (form_get form "date") in
      let start_str := strip (form_get form "start_year") in
      let end_str := strip (form_get form "end_year") in
      let '(error, mm_dd, pretty_date) := parse_date error date_value pretty_date in
      let '(error, start_year, end_year) :=
        parse_years error start_str end_str current_year in
      match opt_truthy error, mm_dd with
      | false, Some mm_dd =>
          if str_truthy mm_dd
          then
            let '(error, end_year) :=
              clamp_range error start_year end_year current_year in
            let results := [] in
            fetched <- fetch_years mm_dd (range start_year (end_year + 1))
                         results error ;;
            let '(results, error) := fetched in
            results <- lift (sort_results results) ;;
            ret (Context error (Some results) date_value start_year end_year
                   pretty_date current_year)
          else
            ret (Context error results date_value start_year end_year
                   pretty_date current_year)
      | _, _ =>
          ret (Context error results date_value start_year end_year pretty_date
                 current_year)
      end
  end.

End Handler.

(** ** The template's conditionals *)

(** [{% if error %}] *)
Definition shows_error (c : context) : bool := opt_truthy (error c).

(** [{% if results is not none %}]: the summary line. *)
Definition shows_summary (c : context) : bool :=
  match results c with Some _ => true | None => false end.

(** [{% if results %}] inside it: the table. *)
Definition shows_table (c : context) : bool :=
  match results c with Some (_ :: _) => true | _ => false end.

(* ================================================================= *)
(** ** Vocabulary of the statements *)

(** The requests of a trace, in order. *)
Definition gets (t : list event) : list http_request :=
  flat_map (fun ev => match ev with Get r => [r] | Sleep _ => [] end) t.

(** The request the search sends for a year. *)
Definition request_for (mm_dd : string) (year : Z) : http_request :=
  Request API_BASE
    [("query", "date:" ++ str_of_int year ++ "-" ++ mm_dd); ("fmt", "json");
     ("limit", "50")]
    [("User-Agent", USER_AGENT)] 30.

(** The banner of a failed year. *)
Definition failure_message (year : Z) (e : exn) : string :=
  (if is_HTTPError e then "HTTP error for year " else "Error for year ")
  ++ str_of_int year ++ ": " ++ str_e e.

Section Catalog.

Variable requests_get : http_request -> result response.
Variable mm_dd : string.

(** How the search of a year ends. *)
Definition search_outcome (year : Z) : result value :=
  snd (search_releases_for_date requests_get year mm_dd 50).

(** The records of a year, in the order of the answer. *)
Definition year_records (year : Z) : result (list Release) :=
  releases <~ search_outcome year ;;
  items <~ iter releases ;;
  collect year items [].

Definition records_of (year : Z) : list Release :=
  match year_records year with Ok l => l | Raised _ => [] end.

(** The year is handled without an exception that escapes the handler:
    its search raises (and is caught), or every entry of its answer gives a
    record. *)
Definition handled (year : Z) : bool :=
  match search_outcome year with
  | Raised _ => true
  | Ok _ => match year_records year with Ok _ => true | Raised _ => false end
  end.

(** The years before the first one whose search raises. *)
Fixpoint visited (years : list Z) : list Z :=
  match years with
  | [] => []
  | y :: years' =>
      match search_outcome y with
      | Ok _ => y :: visited years'
      | Raised _ => []
      end
  end.

(** The first year whose search raises, with the exception. *)
Fixpoint failure (years : list Z) : option (Z * exn) :=
  match years with
  | [] => None
  | y :: years' =>
      match search_outcome y with
      | Ok _ => failure years'
      | Raised e => Some (y, e)
      end
  end.

(** The records in collection order: the years in the order visited, the
    records of a year in the order of its answer. *)
Definition collected (years : list Z) : list Release :=
  flat_map records_of (visited years).

(** The years a request is sent for. *)
Definition attempted (years : list Z) : list Z :=
  (visited years
   ++ match failure years with Some (y, _) => [y] | None => [] end)%list.

(** The events of the loop: a request and a pause for each year visited,
    and the request of the year that failed. *)
Definition loop_trace (years : list Z) : list event :=
  (flat_map (fun y => [Get (request_for mm_dd y); Sleep 100]) (visited years)
   ++ match failure years with
      | Some (y, _) => [Get (request_for mm_dd y)]
      | None => []
      end)%list.

(** The banner after the loop, [error] being the one before it. *)
Definition loop_error (years : list Z) (error : option string) : option string :=
  match failure years with
  | Some (y, e) => Some (failure_message y e)
  | None => error
  end.

End Catalog.

(** *** The sort order *)

(** The text a key component compares as: the string itself, the empty
    string when the attribute is absent (or empty). *)
Definition text (v : value) : string :=
  match v with VStr s => s | _ => "" end.

Definition key (x : Release) : Z * string * string :=
  (r_year x, text (r_artist x), text (r_title x)).

(** Strings by code point, at the first character that differs. *)
Definition str_lt (s t : string) : Prop := String.compare s t = Lt.

(** Year, then artist, then title. *)
Definition key_lt (a b : Z * string * string) : Prop :=
  let '(y1, a1, t1) := a in
  let '(y2, a2, t2) := b in
  y1 < y2 \/ (y1 = y2 /\ (str_lt a1 a2 \/ (a1 = a2 /\ str_lt t1 t2))).

Definition key_le (a b : Z * string * string) : Prop := key_lt a b \/ a = b.

Definition key_eqb (a b : Z * string * string) : bool :=
  let '(y1, a1, t1) := a in
  let '(y2, a2, t2) := b in
  (y1 =? y2) && (a1 =? a2)%string && (t1 =? t2)%string.

(** The artist and the title are strings or absent. *)
Definition str_keyed (x : Release) : bool :=
  match r_artist x, r_title x with
  | (VStr _ | VNone), (VStr _ | VNone) => true
  | _, _ => false
  end.

(** *** The catalog's documents, as its interface describes them *)

Definition opt_string (v : option value) : bool :=
  match v with
  | None | Some VNone | Some (VStr _) => true
  | _ => false
  end.

(** A credit object: its name, if any, is a string. *)
Definition credit (c : value) : bool :=
  match c with
  | VDict kv => opt_string (lookup "name" kv)
  | _ => false
  end.

(** An entry: an object whose title, date and id are strings where present,
    and whose artist-credit, where present, is a list of credit objects. *)
Definition catalog_release (r : value) : bool :=
  match r with
  | VDict kv =>
      opt_string (lookup "title" kv) && opt_string (lookup "date" kv)
      && opt_string (lookup "id" kv)
      && match lookup "artist-credit" kv with
         | None | Some VNone => true
         | Some (VList l) => forallb credit l
         | Some _ => false
         end
  | _ => false
  end.

(** A document: an object whose releases, where present, are a list of
    entries. *)
Definition catalog_document (data : value) : bool :=
  match data with
  | VDict kv =>
      match lookup "releases" kv with
      | None => true
      | Some (VList l) => forallb catalog_release l
      | Some _ => false
      end
  | _ => false
  end.

(** A reply: an exception of [requests], or a document of the catalog. *)
Definition catalog_reply (r : result response) : bool :=
  match r with
  | Raised _ => true
  | Ok resp =>
      match raise_for_status resp, json resp with
      | Ok _, Ok data => catalog_document data
      | _, _ => true
      end
  end.

Definition catalog (requests_get : http_request -> result response) : Prop :=
  forall req, catalog_reply (requests_get req) = true.

(** *** What an entry should give *)

(** [r.get(k)] on an object. *)
Definition field (k : string) (r : value) : value :=
  match r with
  | VDict kv => match lookup k kv with Some v => v | None => VNone end
  | _ => VNone
  end.

(** The name of the first credit of a non-empty artist-credit list whose
    first credit has one; absent otherwise. *)
Definition first_credit_name (r : value) : value :=
  match field "artist-credit" r with
  | VList (VDict credit0 :: _) =>
      match lookup "name" credit0 with Some name => name | None => VNone end
  | _ => VNone
  end.

(** The deep link of an entry with an identifier; absent otherwise. *)
Definition deep_link (r : value) : value :=
  match field "id" r with
  | VNone | VStr "" | VInt 0 | VBool false | VList [] | VDict [] => VNone
  | mbid => VStr ("https://musicbrainz.org/release/" ++ str mbid)
  end.

(** *** The sort, on records whose keys are strings *)

Definition key_ltb (a b : Z * string * string) : bool :=
  let '(y1, a1, t1) := a in
  let '(y2, a2, t2) := b in
  if negb (y1 =? y2) then y1 <? y2
  else if negb (a1 =? a2)%string then (a1 <? a2)%string
  else if negb (t1 =? t2)%string then (t1 <? t2)%string
  else false.

Fixpoint insert_by_key (x : Release) (l : list Release) : list Release :=
  match l with
  | [] => [x]
  | y :: l' =>
      if key_ltb (key y) (key x) then y :: insert_by_key x l' else x :: l
  end.

Fixpoint sort_by_key (l : list Release) : list Release :=
  match l with
  | [] => []
  | x :: l' => insert_by_key x (sort_by_key l')
  end.

(** In ascending order of the keys. *)
Definition ordered (l : list Release) : Prop :=
  StronglySorted (fun a b => key_le (key a) (key b)) l.

(** The records of a list that have the key [k], in its order. *)
Definition with_key (k : Z * string * string) (l : list Release) : list Release :=
  filter (fun x => key_eqb (key x) k) l.

(** *** The submitted fields *)

Definition date_field (form : list (string * string)) : string :=
  strip (form_get form "date").

Definition start_field (form : list (string * string)) : string :=
  strip (form_get form "start_year").

Definition end_field (form : list (string * string)) : string :=
  strip (form_get form "end_year").

Definition invalid_date : string := "Invalid date. Please use the date picker.".
Definition invalid_years : string := "Start/end year must be numbers.".

(* ================================================================= *)
(** ** A catalog and submissions to run the handler on *)

Definition entry (artist title date id : string) : value :=
  VDict [("id", VStr id); ("title", VStr title); ("date", VStr date);
         ("artist-credit", VList [VDict [("name", VStr artist)]])].

Definition document (releases : list value) : result response :=
  Ok (Response (Ok tt) (Ok (VDict [("count", VInt (Z.of_nat (List.length releases)));
                                   ("releases", VList releases)]))).

Definition unavailable : exn :=
  Exn HTTPError "503 Server Error: Service Unavailable".

Definition query_of (r : http_request) : string := form_get (params r) "query".

(** Three records for 22 November 2018 (two of them with one key), two for
    2019 (one with no credit and no identifier), an outage for 2020, nothing
    for the other days. *)
Definition sample_catalog (r : http_request) : result response :=
  if (query_of r =? "date:2018-11-22")%string
  then document [entry "Radiohead" "Spectre" "2018-11-22" "a1";
                 entry "Adele" "Hello" "2018-11-22" "a2";
                 entry "Adele" "Hello" "2018" "a3"]
  else if (query_of r =? "date:2019-11-22")%string
  then document [entry "Radiohead" "Creep" "2019-11-22" "b1";
                 VDict [("title", VStr "Untitled"); ("artist-credit", VList [])]]
  else if (query_of r =? "date:2020-11-22")%string
  then Ok (Response (Raised unavailable) (Ok VNone))
  else document [].

(** A catalog that is down. *)
Definition outage (r : http_request) : result response :=
  Ok (Response (Raised unavailable) (Ok VNone)).

Definition sample_now : datetime := Datetime 2025 11 22.

Definition submission (date start_year end_year : string) : list (string * string) :=
  [("date", date); ("start_year", start_year); ("end_year", end_year)].

(** The records of the page for 22 November of 2018 and 2019. *)
Definition sample_records : list Release :=
  [mkRelease 2018 (VStr "Hello") (VStr "Adele") (VStr "2018-11-22")
     (VStr "https://musicbrainz.org/release/a2");
   mkRelease 2018 (VStr "Hello") (VStr "Adele") (VStr "2018")
     (VStr "https://musicbrainz.org/release/a3");
   mkRelease 2018 (VStr "Spectre") (VStr "Radiohead") (VStr "2018-11-22")
     (VStr "https://musicbrainz.org/release/a1");
   mkRelease 2019 (VStr "Untitled") VNone VNone VNone;
   mkRelease 2019 (VStr "Creep") (VStr "Radiohead") (VStr "2019-11-22")
     (VStr "https://musicbrainz.org/release/b1")].

(* ================================================================= *)
(** ** Vocabulary of the further statements *)

(** A request and a pause for each of the years. *)
Definition pauses (mm_dd : string) (years : list Z) : list event :=
  flat_map (fun y => [Get (request_for mm_dd y); Sleep 100]) years.

(** A trace in which a pause of 100 ms follows every request but, possibly,
    the last, and nothing else happens. *)
Fixpoint paced (t : list event) : bool :=
  match t with
  | [] => true
  | Get _ :: t1 =>
      match t1 with
      | [] => true
      | Sleep ms :: t2 => (ms =? 100) && paced t2
      | Get _ :: _ => false
      end
  | Sleep _ :: _ => false
  end.

(** The number of entries of the answer for a year. *)
Definition answer_size (requests_get : http_request -> result response)
    (mm_dd : string) (year : Z) : nat :=
  match search_outcome requests_get mm_dd year with
  | Ok releases =>
      match iter releases with Ok items => List.length items | Raised _ => 0%nat end
  | Raised _ => 0%nat
  end.

(** The entries the record loop takes without an exception: objects whose
    artist-credit is not a non-empty list, or is one whose first credit is an
    object, or a string or a list that does not hold the text name. *)
Definition safe_entry (r : value) : bool :=
  match r with
  | VDict _ =>
      match field "artist-credit" r with
      | VList (VDict _ :: _) => true
      | VList (VStr s :: _) => negb (substring_of "name" s)
      | VList (VList l :: _) => negb (existsb (str_eqb "name") l)
      | VList (_ :: _) => false
      | _ => true
      end
  | _ => false
  end.

(** A day of the calendar, in a year of four digits. *)
Definition calendar_day (dt : datetime) : Prop :=
  1000 <= year dt <= 9999 /\ 1 <= month dt <= 12
  /\ 1 <= day dt <= days_in_month (year dt) (month dt).

(** A reply with a body. *)
Definition body (data : value) : result response := Ok (Response (Ok tt) (Ok data)).

(** An object without releases for 2018, a list for 2019, an object whose
    releases are null for 2020, nothing for the other days. *)
Definition odd_catalog (r : http_request) : result response :=
  if (query_of r =? "date:2018-11-22")%string
  then body (VDict [("count", VInt 0)])
  else if (query_of r =? "date:2019-11-22")%string
  then body (VList [])
  else if (query_of r =? "date:2020-11-22")%string
  then body (VDict [("releases", VNone)])
  else document [].

(** The value the template gives a year input,
    [value="{{ start_year or '' }}"]: nothing for the year zero. *)
Definition year_input_value (y : Z) : string :=
  if y =? 0 then "" else str_of_int y.

(** The span of the years a request resolves to can be written: the clamp
    warning of lines 224-228 writes it, outside any [try]. *)
Definition span_writable (now1 : datetime) (req : request) : bool :=
  match req with
  | GET => true
  | POST form =>
      match read_years (start_field form) (end_field form) (year now1) with
      | Some (start_year, end_year) => str_writable (end_year - start_year + 1)
      | None => true
      end
  end.

(** The format that the comment of line 199 names, [YYYY-MM-DD]: four
    digits, a hyphen, two digits, a hyphen, two digits. *)
Definition strict_format (s : string) : bool :=
  match list_ascii_of_string s with
  | [y1; y2; y3; y4; h1; m1; m2; h2; d1; d2] =>
      forallb is_digit [y1; y2; y3; y4; m1; m2; d1; d2]
      && (code h1 =? 45)%nat && (code h2 =? 45)%nat
  | _ => false
  end.

(* ================================================================= *)
(** ** The model on concrete inputs *)

Example int_accepts :
  map int ["2019"; " -5 "; "+7"; "1_000"; "007"]
  = [Some 2019; Some (-5); Some 7; Some 1000; Some 7].
Proof. reflexivity. Qed.

Example int_rejects :
  map int [EmptyString; "abc"; "12.5"; "1__0"; "_1"; "1_"; "+-1"; "- 1"; "+"]
  = [None; None; None; None; None; None; None; None; None].
Proof. reflexivity. Qed.

Example strptime_accepts :
  map strptime ["2019-11-22"; "2019-1-5"; "2019-11- 5"; "2020-02-29"]
  = [Some (Datetime 2019 11 22); Some (Datetime 2019 1 5);
     Some (Datetime 2019 11 5); Some (Datetime 2020 2 29)].
Proof. reflexivity. Qed.

Example strptime_rejects :
  map strptime [EmptyString; "22/11/2019"; "19-11-22"; "2019-13-01";
                "2019-02-29"; "2019-11-31"; "2019-11-221"; "0000-01-01";
                "2019-11-22T10:00"]
  = [None; None; None; None; None; None; None; None; None].
Proof. reflexivity. Qed.

Example strip_field : strip "  2019 " = "2019".
Proof. reflexivity. Qed.

Example first_load :
  index sample_catalog sample_now sample_now GET
  = ([], Ok (Context None None "2025-11-22" 1990 2025 "" 2025)).
Proof. reflexivity. Qed.

(** Two years, sorted by year, then artist, then title; the two records of
    one key in the order of the answer. *)
Example two_years :
  index sample_catalog sample_now sample_now
    (POST (submission "2019-11-22" "2018" "2019"))
  = ([Get (request_for "11-22" 2018); Sleep 100;
      Get (request_for "11-22" 2019); Sleep 100],
     Ok (Context None (Some sample_records) "2019-11-22" 2018 2019
           "November 22" 2025)).
Proof. vm_compute. reflexivity. Qed.

(** An entry whose fields are of other types: the page is not rendered. *)
Example entry_that_is_not_an_object :
  snd (index (fun _ => document [VStr "x"]) sample_now sample_now
         (POST (submission "2019-11-22" "2018" "2018")))
  = Raised (Exn AttributeError "'str' object has no attribute 'get'").
Proof. vm_compute. reflexivity. Qed.

(* ================================================================= *)
(** ** The loop over the years *)

Section Loop.

Variable requests_get : http_request -> result response.
Variable mm_dd : string.

Local Notation "'search'" := (search_releases_for_date requests_get).
Local Notation "'outcome'" := (search_outcome requests_get mm_dd).
Local Notation "'fetch'" := (fetch_years requests_get mm_dd).

(** The search sends one request, whatever comes of it. *)
Lemma search_trace (y : Z) :
  search y mm_dd 50 = ([Get (request_for mm_dd y)], outcome y).
Proof.
  unfold search_outcome, search_releases_for_date, request_for, bind, emit, lift.
  cbn [str_of_int].
  destruct (requests_get _) as [resp|e]; cbn; [|reflexivity].
  destruct (raise_for_status resp); cbn; [|reflexivity].
  destruct (json resp) as [data|e]; cbn; [|reflexivity].
  destruct (get data "releases" (VList [])); reflexivity.
Qed.

(** A transport error and a status error both end the search. *)
Lemma search_raises_transport (y : Z) (e : exn) :
  requests_get (request_for mm_dd y) = Raised e -> outcome y = Raised e.
Proof.
  intros H. unfold search_outcome, search_releases_for_date, bind, emit, lift.
  change (str_of_int 50) with "50". fold (request_for mm_dd y).
  rewrite H. reflexivity.
Qed.

Lemma search_raises_status (y : Z) (resp : response) (e : exn) :
  requests_get (request_for mm_dd y) = Ok resp ->
  raise_for_status resp = Raised e -> outcome y = Raised e.
Proof.
  intros H H'. unfold search_outcome, search_releases_for_date, bind, emit, lift.
  change (str_of_int 50) with "50". fold (request_for mm_dd y).
  rewrite H. cbn. rewrite H'. reflexivity.
Qed.

(** Appending to the records so far is appending the records of the year. *)
Lemma collect_append (y : Z) (items : list value) (acc : list Release) :
  collect y items acc =
  match collect y items [] with
  | Ok rs => Ok (acc ++ rs)%list
  | Raised e => Raised e
  end.
Proof.
  revert acc. induction items as [|r items IH]; intros acc; cbn.
  - now rewrite app_nil_r.
  - destruct (release_of y r) as [x|e]; cbn; [|reflexivity].
    rewrite (IH (acc ++ [x])%list), (IH [x]).
    destruct (collect y items []); [|reflexivity].
    now rewrite <- app_assoc.
Qed.

(** One turn of the loop. *)
Lemma fetch_years_step (y : Z) (ys : list Z) (acc : list Release)
    (err : option string) :
  fetch (y :: ys) acc err =
  match outcome y with
  | Raised e => ([Get (request_for mm_dd y)], Ok (acc, Some (failure_message y e)))
  | Ok releases =>
      match items <~ iter releases ;; collect y items acc with
      | Raised e => ([Get (request_for mm_dd y)], Raised e)
      | Ok acc' =>
          (Get (request_for mm_dd y) :: Sleep 100 :: fst (fetch ys acc' err),
           snd (fetch ys acc' err))
      end
  end.
Proof.
  cbn [fetch_years]. rewrite search_trace. unfold attempt, bind at 1. cbn [fst snd].
  destruct (outcome y) as [releases|e].
  - unfold bind, lift, emit, rbind.
    destruct (iter releases) as [items|e]; cbn; [|reflexivity].
    destruct (collect y items acc) as [acc'|e]; cbn; [|reflexivity].
    destruct (fetch ys acc' err); reflexivity.
  - unfold failure_message. destruct (is_HTTPError e); reflexivity.
Qed.

(** The loop, when no exception escapes it: a request and a pause for each
    year before the first failure, a request for the failing year, the
    records of the years before it, and its banner. *)
Lemma fetch_years_spec (ys : list Z) (acc : list Release) (err : option string) :
  forallb (handled requests_get mm_dd) ys = true ->
  fetch ys acc err =
  (loop_trace requests_get mm_dd ys,
   Ok ((acc ++ collected requests_get mm_dd ys)%list,
       loop_error requests_get mm_dd ys err)).
Proof.
  unfold loop_trace, loop_error.
  revert acc. induction ys as [|y ys IH]; intros acc Hok.
  - cbn. now rewrite app_nil_r.
  - cbn [forallb] in Hok. apply andb_prop in Hok as [Hy Hys].
    rewrite fetch_years_step. unfold collected. cbn [visited failure].
    unfold handled in Hy.
    destruct (outcome y) as [releases|e] eqn:Ho.
    + destruct (year_records requests_get mm_dd y) as [rs|e] eqn:Hrs;
        [|discriminate].
      assert (Hrec : records_of requests_get mm_dd y = rs)
        by (unfold records_of; now rewrite Hrs).
      unfold year_records in Hrs. rewrite Ho in Hrs. cbn [rbind] in Hrs |- *.
      destruct (iter releases) as [items|e]; [|discriminate].
      cbn [rbind] in Hrs |- *. rewrite collect_append, Hrs.
      rewrite (IH _ Hys). cbn [fst snd flat_map]. rewrite Hrec.
      unfold collected. now rewrite <- !app_assoc.
    + cbn. now rewrite app_nil_r.
Qed.

(** The same of any loop that ended without an exception. *)
Lemma fetch_years_ok (ys : list Z) (acc : list Release)
    (err : option string) (t : list event) (p : list Release * option string) :
  fetch ys acc err = (t, Ok p) ->
  t = loop_trace requests_get mm_dd ys
  /\ p = ((acc ++ collected requests_get mm_dd ys)%list,
          loop_error requests_get mm_dd ys err).
Proof.
  unfold loop_trace, loop_error, collected.
  revert acc t. induction ys as [|y ys IH]; intros acc t.
  - cbn. rewrite app_nil_r. now intros [= <- <-].
  - rewrite fetch_years_step. cbn [visited failure].
    destruct (outcome y) as [releases|e] eqn:Ho.
    + cbn [rbind]. destruct (iter releases) as [items|e] eqn:Hi; [|discriminate].
      cbn [rbind]. rewrite collect_append.
      destruct (collect y items []) as [rs|e] eqn:Hrs; [|discriminate].
      assert (Hrec : records_of requests_get mm_dd y = rs).
      { unfold records_of, year_records. rewrite Ho. cbn [rbind].
        rewrite Hi. cbn [rbind]. now rewrite Hrs. }
      destruct (fetch ys (acc ++ rs)%list err) as [t' r] eqn:Hf. cbn [fst snd].
      intros [= <- ->]. destruct (IH _ _ Hf) as [-> ->].
      cbn [flat_map]. rewrite Hrec. now rewrite <- !app_assoc.
    + cbn. rewrite app_nil_r. now intros [= <- <-].
Qed.

End Loop.

(* ================================================================= *)
(** ** The order of the keys *)

Lemma str_compare_refl (s : string) : String.compare s s = Eq.
Proof.
  pose proof (String.compare_antisym s s) as H.
  destruct (String.compare s s); cbn in H; congruence.
Qed.

Lemma str_lt_irrefl (s : string) : ~ str_lt s s.
Proof. unfold str_lt. rewrite str_compare_refl. discriminate. Qed.

Lemma ascii_compare_lt_trans (a b c : ascii) :
  Ascii.compare a b = Lt -> Ascii.compare b c = Lt -> Ascii.compare a c = Lt.
Proof.
  unfold Ascii.compare. rewrite !N.compare_lt_iff. apply N.lt_trans.
Qed.

Lemma str_lt_trans (s t u : string) : str_lt s t -> str_lt t u -> str_lt s u.
Proof.
  unfold str_lt. revert t u.
  induction s as [|a s IH]; intros [|b t] [|c u]; cbn; try congruence.
  destruct (Ascii.compare a b) eqn:Hab; try discriminate;
    destruct (Ascii.compare b c) eqn:Hbc; try discriminate; intros Hst Htu.
  - apply Ascii.compare_eq_iff in Hab, Hbc. subst.
    rewrite (proj2 (N.compare_eq_iff _ _) eq_refl : Ascii.compare c c = Eq).
    now apply (IH t u).
  - apply Ascii.compare_eq_iff in Hab. subst. now rewrite Hbc.
  - apply Ascii.compare_eq_iff in Hbc. subst. now rewrite Hab.
  - now rewrite (ascii_compare_lt_trans a b c).
Qed.

Lemma str_lt_total (s t : string) : str_lt s t \/ s = t \/ str_lt t s.
Proof.
  unfold str_lt. rewrite (String.compare_antisym t s).
  destruct (String.compare s t) eqn:H; cbn; auto.
  right; left. now apply String.compare_eq_iff.
Qed.

Lemma str_ltb_iff (s t : string) : (s <? t)%string = true <-> str_lt s t.
Proof.
  unfold String.ltb, str_lt. destruct (String.compare s t); split; congruence.
Qed.

Lemma key_lt_irrefl (a : Z * string * string) : ~ key_lt a a.
Proof.
  destruct a as [[y s] t]. cbn.
  intros [H|[_ [H|[_ H]]]]; [lia | |]; now apply str_lt_irrefl in H.
Qed.

Lemma key_lt_trans (a b c : Z * string * string) :
  key_lt a b -> key_lt b c -> key_lt a c.
Proof.
  destruct a as [[y1 a1] t1], b as [[y2 a2] t2], c as [[y3 a3] t3]. cbn.
  intros [H|[-> [H|[-> H]]]] [H'|[-> [H'|[-> H']]]]; auto; try (left; lia).
  - right; split; [easy|]. left. eapply str_lt_trans; eassumption.
  - right; split; [easy|]. right; split; [easy|].
    eapply str_lt_trans; eassumption.
Qed.

Lemma key_lt_total (a b : Z * string * string) :
  key_lt a b \/ a = b \/ key_lt b a.
Proof.
  destruct a as [[y1 a1] t1], b as [[y2 a2] t2]. cbn.
  destruct (Z.lt_total y1 y2) as [H|[->|H]]; auto.
  destruct (str_lt_total a1 a2) as [H|[->|H]]; auto 6.
  destruct (str_lt_total t1 t2) as [H|[->|H]]; auto 8.
Qed.

Lemma key_ltb_iff (a b : Z * string * string) :
  key_ltb a b = true <-> key_lt a b.
Proof.
  destruct a as [[y1 a1] t1], b as [[y2 a2] t2]. cbn.
  destruct (Z.eqb_spec y1 y2) as [->|Hy]; cbn.
  - destruct (String.eqb_spec a1 a2) as [->|Ha]; cbn.
    + destruct (String.eqb_spec t1 t2) as [->|Ht]; cbn.
      * split; [discriminate|].
        intros [H|[_ [H|[_ H]]]]; [lia | |]; now apply str_lt_irrefl in H.
      * rewrite str_ltb_iff. split; auto.
        intros [H|[_ [H|[_ H]]]]; [lia | | easy]. now apply str_lt_irrefl in H.
    + rewrite str_ltb_iff. split; auto.
      intros [H|[_ [H|[H _]]]]; [lia | easy | easy].
  - rewrite Z.ltb_lt. split; auto. intros [H|[H _]]; [easy | lia].
Qed.

Lemma key_le_trans (a b c : Z * string * string) :
  key_le a b -> key_le b c -> key_le a c.
Proof.
  intros [H| ->] [H'| ->]; unfold key_le; auto.
  left. eapply key_lt_trans; eassumption.
Qed.

(** What the sort tests: [b] is not below [a]. *)
Lemma key_ltb_false (a b : Z * string * string) :
  key_ltb b a = false <-> key_le a b.
Proof.
  rewrite <- Bool.not_true_iff_false, key_ltb_iff. unfold key_le.
  destruct (key_lt_total a b) as [H|[->|H]]; split; auto; try easy.
  - intros _ H'. apply (key_lt_irrefl a). eapply key_lt_trans; eassumption.
  - intros _. apply key_lt_irrefl.
  - intros [H'| ->] _; [|now apply key_lt_irrefl in H].
    apply (key_lt_irrefl a). eapply key_lt_trans; eassumption.
Qed.

Lemma key_eqb_eq (a b : Z * string * string) : key_eqb a b = true <-> a = b.
Proof.
  destruct a as [[y1 a1] t1], b as [[y2 a2] t2]. cbn.
  rewrite !andb_true_iff, Z.eqb_eq, !String.eqb_eq.
  split; [intros [[-> ->] ->]; reflexivity | intros [= -> -> ->]; auto].
Qed.

(* ================================================================= *)
(** ** The sort *)

Lemma insert_by_key_perm (x : Release) (l : list Release) :
  Permutation (x :: l) (insert_by_key x l).
Proof.
  induction l as [|y l IH]; cbn [insert_by_key]; [reflexivity|].
  destruct (key_ltb (key y) (key x)); [|reflexivity].
  rewrite perm_swap. now constructor.
Qed.

Lemma sort_by_key_perm (l : list Release) : Permutation l (sort_by_key l).
Proof.
  induction l as [|x l IH]; cbn [sort_by_key]; [constructor|].
  rewrite <- insert_by_key_perm. now constructor.
Qed.

Lemma insert_by_key_ordered (x : Release) (l : list Release) :
  ordered l -> ordered (insert_by_key x l).
Proof.
  unfold ordered. induction 1 as [|y l Hs IH Hy]; cbn [insert_by_key].
  - repeat constructor.
  - destruct (key_ltb (key y) (key x)) eqn:Hlt.
    + constructor; [exact IH|].
      apply (Permutation_Forall (insert_by_key_perm x l)).
      constructor; [|exact Hy]. left. now apply key_ltb_iff.
    + apply key_ltb_false in Hlt. constructor; [now constructor|].
      constructor; [exact Hlt|].
      eapply Forall_impl; [|exact Hy]. intros z. now apply key_le_trans.
Qed.

Lemma sort_by_key_ordered (l : list Release) : ordered (sort_by_key l).
Proof.
  induction l as [|x l IH]; cbn [sort_by_key]; [constructor|].
  now apply insert_by_key_ordered.
Qed.

(** An element only passes elements of other keys. *)
Lemma insert_by_key_stable (k : Z * string * string) (x : Release)
    (l : list Release) :
  with_key k (insert_by_key x l) = with_key k (x :: l).
Proof.
  unfold with_key. induction l as [|y l IH]; [reflexivity|].
  cbn [insert_by_key]. destruct (key_ltb (key y) (key x)) eqn:Hlt; [|reflexivity].
  cbn [filter] in *. rewrite IH.
  destruct (key_eqb (key x) k) eqn:Hx; [|reflexivity].
  destruct (key_eqb (key y) k) eqn:Hy; [|reflexivity].
  apply key_eqb_eq in Hx, Hy. rewrite Hx, Hy in Hlt.
  apply key_ltb_iff in Hlt. now apply key_lt_irrefl in Hlt.
Qed.

Lemma sort_by_key_stable (k : Z * string * string) (l : list Release) :
  with_key k (sort_by_key l) = with_key k l.
Proof.
  induction l as [|x l IH]; [reflexivity|].
  cbn [sort_by_key]. rewrite insert_by_key_stable.
  unfold with_key in *. cbn [filter]. now rewrite IH.
Qed.

(** On keys that are strings, the comparison of the tuples is the order of
    the keys, and [list.sort] is the sort by key. *)
Lemma sort_key_text (x : Release) :
  str_keyed x = true ->
  sort_key x = (r_year x, VStr (text (r_artist x)), VStr (text (r_title x))).
Proof.
  unfold str_keyed, sort_key, or_.
  destruct (r_artist x) as [| | |a| |]; try discriminate;
    destruct (r_title x) as [| | |t| |]; try discriminate; intros _; cbn;
    try destruct a; try destruct t; reflexivity.
Qed.

Lemma tuple_lt_keyed (x y : Release) :
  str_keyed x = true -> str_keyed y = true ->
  tuple_lt (sort_key x) (sort_key y) = Ok (key_ltb (key x) (key y)).
Proof.
  intros Hx Hy. rewrite (sort_key_text x Hx), (sort_key_text y Hy).
  unfold tuple_lt, key, key_ltb. cbn [eqb ltb].
  destruct (negb (r_year x =? r_year y)); [reflexivity|].
  destruct (negb (text (r_artist x) =? text (r_artist y))%string); [reflexivity|].
  destruct (negb (text (r_title x) =? text (r_title y))%string); reflexivity.
Qed.

Lemma insert_keyed (x : Release) (l : list Release) :
  str_keyed x = true -> forallb str_keyed l = true ->
  insert x l = Ok (insert_by_key x l).
Proof.
  intros Hx. induction l as [|y l IH]; cbn [insert insert_by_key forallb];
    [reflexivity|].
  intros [Hy Hl]%andb_prop. rewrite (tuple_lt_keyed y x Hy Hx). cbn [rbind].
  destruct (key_ltb (key y) (key x)); [|reflexivity].
  now rewrite (IH Hl).
Qed.

Lemma forallb_perm {A} (f : A -> bool) (l l' : list A) :
  Permutation l l' -> forallb f l = true -> forallb f l' = true.
Proof.
  intros Hp. rewrite !forallb_forall. intros H x Hin.
  apply H. eapply Permutation_in; [symmetry|]; eassumption.
Qed.

Lemma list_sort_keyed (l : list Release) :
  forallb str_keyed l = true -> list_sort l = Ok (sort_by_key l).
Proof.
  induction l as [|x l IH]; cbn [list_sort sort_by_key forallb]; [reflexivity|].
  intros [Hx Hl]%andb_prop. rewrite (IH Hl). cbn [rbind].
  apply insert_keyed; [exact Hx|].
  eapply forallb_perm; [apply sort_by_key_perm|exact Hl].
Qed.

Lemma sort_results_keyed (l : list Release) :
  forallb str_keyed l = true -> sort_results l = Ok (sort_by_key l).
Proof.
  destruct l as [|x l]; [reflexivity|]. apply list_sort_keyed.
Qed.

(** Whatever the keys, a sort that ends has permuted the list. *)
Lemma insert_perm (x : Release) (l l' : list Release) :
  insert x l = Ok l' -> Permutation (x :: l) l'.
Proof.
  revert l'. induction l as [|y l IH]; cbn [insert]; intros l'.
  - intros [= <-]. reflexivity.
  - destruct (tuple_lt (sort_key y) (sort_key x)) as [[|]|e]; cbn [rbind];
      try discriminate.
    + destruct (insert x l) as [l''|e]; cbn [rbind]; [|discriminate].
      intros [= <-]. rewrite perm_swap. constructor. now apply IH.
    + intros [= <-]. reflexivity.
Qed.

Lemma list_sort_perm (l l' : list Release) :
  list_sort l = Ok l' -> Permutation l l'.
Proof.
  revert l'. induction l as [|x l IH]; cbn [list_sort]; intros l'.
  - intros [= <-]. constructor.
  - destruct (list_sort l) as [s|e]; cbn [rbind]; [|discriminate].
    intros Hi%insert_perm. rewrite <- Hi. constructor. now apply IH.
Qed.

Lemma sort_results_perm (l l' : list Release) :
  sort_results l = Ok l' -> Permutation l l'.
Proof.
  destruct l; [intros [= <-]; constructor | apply list_sort_perm].
Qed.

(* ================================================================= *)
(** ** The catalog's documents give records *)

Lemma search_outcome_eq (requests_get : http_request -> result response)
    (mm_dd : string) (y : Z) :
  search_outcome requests_get mm_dd y =
  (resp <~ requests_get (request_for mm_dd y) ;;
   _ <~ raise_for_status resp ;;
   data <~ json resp ;;
   get data "releases" (VList [])).
Proof.
  unfold search_outcome, search_releases_for_date, bind, emit, lift.
  change (str_of_int 50) with "50". fold (request_for mm_dd y).
  destruct (requests_get _) as [resp|e]; cbn; [|reflexivity].
  destruct (raise_for_status resp); cbn; [|reflexivity].
  destruct (json resp) as [data|e]; cbn; [|reflexivity].
  destruct (get data "releases" (VList [])); reflexivity.
Qed.

Lemma opt_string_cases (v : option value) :
  opt_string v = true ->
  v = None \/ v = Some VNone \/ exists s, v = Some (VStr s).
Proof.
  destruct v as [[| | |s| |]|]; cbn; try discriminate; eauto.
Qed.

Lemma catalog_release_record (y : Z) (r : value) :
  catalog_release r = true ->
  exists x, release_of y r = Ok x /\ str_keyed x = true.
Proof.
  destruct r as [| | | | |kv]; cbn [catalog_release]; try discriminate.
  rewrite !andb_true_iff. intros [[[Ht _] _] Hac].
  unfold release_of. cbn [get rbind].
  assert (Hartist : exists a,
    (if truthy (or_ match lookup "artist-credit" kv with
                    | Some x => x | None => VNone end (VList []))
        && is_list (or_ match lookup "artist-credit" kv with
                        | Some x => x | None => VNone end (VList []))
     then match or_ match lookup "artist-credit" kv with
                    | Some x => x | None => VNone end (VList []) with
          | VList (ac0 :: _) =>
              has_name <~ contains "name" ac0 ;;
              (if has_name then getitem ac0 "name" else Ok VNone)
          | _ => Ok VNone
          end
     else Ok VNone) = Ok a /\ (a = VNone \/ exists s, a = VStr s)).
  { destruct (lookup "artist-credit" kv) as [[| | | |l|]|]; try discriminate;
      cbn; eauto.
    destruct l as [|c l]; cbn; eauto.
    cbn in Hac. apply andb_prop in Hac as [Hc _].
    destruct c as [| | | | |ckv]; try discriminate. cbn in Hc |- *.
    destruct (opt_string_cases _ Hc) as [->|[->|[s ->]]]; cbn; eauto. }
  destruct Hartist as (a & -> & Ha). cbn [rbind].
  eexists. split; [reflexivity|]. unfold str_keyed. cbn.
  destruct (opt_string_cases _ Ht) as [->|[->|[s ->]]];
    destruct Ha as [->|[s' ->]]; reflexivity.
Qed.

Lemma collect_catalog (y : Z) (items : list value) :
  forallb catalog_release items = true ->
  exists rs, collect y items [] = Ok rs /\ forallb str_keyed rs = true.
Proof.
  induction items as [|r items IH]; cbn [forallb collect].
  - intros _. now exists [].
  - intros [Hr Hitems]%andb_prop.
    destruct (catalog_release_record y r Hr) as (x & -> & Hx).
    destruct (IH Hitems) as (rs & Hrs & Hkeyed).
    cbn [rbind]. rewrite collect_append, Hrs. exists (x :: rs).
    split; [reflexivity|]. cbn. now rewrite Hx.
Qed.

Section CatalogYears.

Variable requests_get : http_request -> result response.
Variable mm_dd : string.
Hypothesis well_formed : catalog requests_get.

(** A year of the catalog: its search raises and there is no record, or it
    gives records with string keys. *)
Lemma catalog_year (y : Z) :
  handled requests_get mm_dd y = true
  /\ forallb str_keyed (records_of requests_get mm_dd y) = true.
Proof.
  unfold handled, records_of, year_records.
  rewrite search_outcome_eq.
  pose proof (well_formed (request_for mm_dd y)) as H. unfold catalog_reply in H.
  destruct (requests_get _) as [resp|e]; cbn [rbind]; [|auto].
  destruct (raise_for_status resp); cbn [rbind]; [|auto].
  destruct (json resp) as [data|e]; cbn [rbind]; [|auto].
  destruct data as [| | | | |kv]; try discriminate. cbn [get rbind].
  cbn [catalog_document] in H.
  destruct (lookup "releases" kv) as [[| | | |l|]|]; try discriminate;
    cbn [iter rbind]; [|auto].
  destruct (collect_catalog y l H) as (rs & -> & Hrs). auto.
Qed.

Lemma catalog_handled (ys : list Z) :
  forallb (handled requests_get mm_dd) ys = true.
Proof. apply forallb_forall. intros y _. apply catalog_year. Qed.

Lemma catalog_collected_keyed (ys : list Z) :
  forallb str_keyed (collected requests_get mm_dd ys) = true.
Proof.
  unfold collected. induction (visited requests_get mm_dd ys) as [|y l IH];
    [reflexivity|].
  cbn [flat_map]. rewrite forallb_app, IH, (proj2 (catalog_year y)). reflexivity.
Qed.

End CatalogYears.

(* ================================================================= *)
(** ** Ranges of years *)

Lemma in_range (a b y : Z) : In y (range a b) <-> a <= y < b.
Proof.
  unfold range. rewrite in_map_iff. split.
  - intros (i & <- & Hi%in_seq). lia.
  - intros H. exists (Z.to_nat (y - a)). split; [lia|]. apply in_seq. lia.
Qed.

Lemma range_nil (a b : Z) : b <= a -> range a b = [].
Proof. intros H. unfold range. now replace (Z.to_nat (b - a)) with 0%nat by lia. Qed.

Lemma map_seq_from {A} (f : nat -> A) (n k : nat) :
  map f (seq n k) = map (fun i => f (n + i)%nat) (seq 0 k).
Proof.
  revert n f. induction k as [|k IH]; intros n f; [reflexivity|].
  cbn [seq map]. rewrite Nat.add_0_r. f_equal.
  rewrite (IH (S n)), (IH 1%nat). apply map_ext. intros i. f_equal. lia.
Qed.

Lemma range_app (a m b : Z) :
  a <= m <= b -> range a b = (range a m ++ range m b)%list.
Proof.
  intros H. unfold range.
  replace (Z.to_nat (b - a)) with (Z.to_nat (m - a) + Z.to_nat (b - m))%nat by lia.
  rewrite seq_app, map_app. f_equal. cbn [Nat.add].
  rewrite map_seq_from. apply map_ext. intros i. lia.
Qed.

Lemma range_cons (a b : Z) : a < b -> range a b = a :: range (a + 1) b.
Proof.
  intros H. rewrite (range_app a (a + 1) b) by lia.
  unfold range at 1. replace (Z.to_nat (a + 1 - a)) with 1%nat by lia.
  cbn. now rewrite Z.add_0_r.
Qed.

(** The years up to [y], [y], and the years after it. *)
Lemma range_split (a b y : Z) :
  a <= y < b -> range a b = (range a y ++ y :: range (y + 1) b)%list.
Proof.
  intros H. rewrite (range_app a y b) by lia. f_equal. apply range_cons. lia.
Qed.

Section FirstFailure.

Variable requests_get : http_request -> result response.
Variable mm_dd : string.

Lemma visited_all (ys : list Z) :
  (forall y, In y ys -> exists v, search_outcome requests_get mm_dd y = Ok v) ->
  visited requests_get mm_dd ys = ys /\ failure requests_get mm_dd ys = None.
Proof.
  induction ys as [|y ys IH]; intros H; [auto|].
  destruct (H y (or_introl eq_refl)) as [v Hv].
  destruct IH as [IH1 IH2]; [intros; apply H; now right|].
  cbn [visited failure]. rewrite Hv, IH1, IH2. auto.
Qed.

Lemma visited_until (pre post : list Z) (y : Z) (e : exn) :
  (forall y', In y' pre -> exists v, search_outcome requests_get mm_dd y' = Ok v) ->
  search_outcome requests_get mm_dd y = Raised e ->
  visited requests_get mm_dd (pre ++ y :: post) = pre
  /\ failure requests_get mm_dd (pre ++ y :: post) = Some (y, e).
Proof.
  intros Hpre Hy. induction pre as [|y' pre IH]; cbn [app visited failure].
  - rewrite Hy. auto.
  - destruct (Hpre y' (or_introl eq_refl)) as [v ->].
    destruct IH as [-> ->]; [intros; apply Hpre; now right|]. auto.
Qed.

End FirstFailure.

(* ================================================================= *)
(** ** The date *)

Ltac bool_facts :=
  repeat match goal with
    | H : _ && _ = true |- _ => apply andb_prop in H as [? ?]
    | H : _ || _ = true |- _ => apply orb_prop in H as [H|H]
    | H : negb _ = true |- _ => apply negb_true_iff in H
    | H : (_ =? _)%nat = true |- _ => apply Nat.eqb_eq in H
    | H : (_ =? _)%nat = false |- _ => apply Nat.eqb_neq in H
    | H : (_ <=? _)%nat = true |- _ => apply Nat.leb_le in H
    | H : is_digit _ = true |- _ => unfold is_digit in H
    end.

Ltac alternative H :=
  match type of H with
  | In _ (if ?c then _ else _) =>
      let E := fresh "E" in
      destruct c eqn:E;
      [destruct H as [H|[]]; apply pair_equal_spec in H as [<- <-]; bool_facts
      | destruct H]
  end.

Ltac alternative_bounds :=
  split; [unfold digit_value; lia | cbn [List.length]; lia].

Lemma month_alternatives_in (l rest : list ascii) (m : Z) :
  In (m, rest) (month_alternatives l) ->
  1 <= m <= 12 /\ (List.length rest < List.length l)%nat.
Proof.
  unfold month_alternatives.
  destruct l as [|c1 [|c2 l2]]; cbn [In app]; [easy| |].
  - intros H. alternative H. alternative_bounds.
  - rewrite !in_app_iff. intros [[H|H]|H]; alternative H; alternative_bounds.
Qed.

Lemma day_alternatives_in (l rest : list ascii) (d : Z) :
  In (d, rest) (day_alternatives l) ->
  1 <= d <= 31 /\ (List.length rest < List.length l)%nat.
Proof.
  unfold day_alternatives.
  destruct l as [|c1 [|c2 l2]]; cbn [In app]; [easy| |].
  - rewrite app_nil_r. intros H. alternative H. alternative_bounds.
  - rewrite !in_app_iff.
    intros [[H|[H|H]]|[H|H]]; alternative H; alternative_bounds.
Qed.

Lemma first_month_in (alts : list (Z * list ascii)) (m d : Z) (rest : list ascii) :
  first_month alts = Some (m, d, rest) ->
  exists l c l', In (m, l) alts /\ l = c :: l' /\ In (d, rest) (day_alternatives l').
Proof.
  induction alts as [|[m' l] alts IH]; cbn [first_month]; [discriminate|].
  destruct (hyphen_day l) as [[d' rest']|] eqn:Hd.
  - intros [= -> -> ->]. unfold hyphen_day in Hd.
    destruct l as [|c l']; [discriminate|].
    destruct (code c =? 45)%nat; [|discriminate].
    exists (c :: l'), c, l'. repeat split; [now left|].
    destruct (day_alternatives l') as [|p alts']; [discriminate|].
    injection Hd as ->. now left.
  - intros (l0 & c & l' & Hin & Hl & Hday)%IH.
    exists l0, c, l'. repeat split; auto. now right.
Qed.

(** A date that parses: its fields are those of a day of the calendar, and
    the input goes on after its first five characters. *)
Lemma strptime_fields (s : string) (dt : datetime) :
  strptime s = Some dt ->
  1 <= year dt /\ 1 <= month dt <= 12
  /\ 1 <= day dt <= days_in_month (year dt) (month dt)
  /\ exists pre rest,
       List.length pre = 5%nat /\ rest <> []
       /\ list_ascii_of_string s = (pre ++ rest)%list.
Proof.
  unfold strptime.
  destruct (list_ascii_of_string s) as [|y1 [|y2 [|y3 [|y4 [|h l]]]]];
    try discriminate.
  destruct (_ && _); [|discriminate].
  destruct (first_month (month_alternatives l)) as [[[m d] [|]]|] eqn:Hm;
    try discriminate.
  destruct (_ && _) eqn:Hv; [|discriminate]. intros Heq.
  match type of Heq with Some ?x = _ => assert (dt = x) by congruence end.
  subst dt. clear Heq.
  apply andb_prop in Hv as [Hy Hd]. apply Z.leb_le in Hy, Hd.
  apply first_month_in in Hm as (l0 & c & l' & Hin & -> & Hday).
  apply month_alternatives_in in Hin as [Hm Hlen].
  apply day_alternatives_in in Hday as [Hday _].
  cbn [year month day]. split; [lia|]. split; [lia|]. split; [lia|].
  exists [y1; y2; y3; y4; h], l. split; [reflexivity|]. split; [|reflexivity].
  intros ->. cbn in Hlen. lia.
Qed.

Lemma days_in_month_le (y m : Z) : days_in_month y m <= 31.
Proof.
  unfold days_in_month.
  destruct m as [|[[[|[]|]|[[]|[]|]|]|[[[]|[]|]|[[]|[]|]|]|]|];
    try destruct (is_leap y); lia.
Qed.

Lemma slice_from_parsed (s : string) (dt : datetime) :
  strptime s = Some dt ->
  str_truthy (slice_from 5 s) = true
  /\ exists pre, String.length pre = 5%nat /\ s = pre ++ slice_from 5 s.
Proof.
  intros (_ & _ & _ & pre & rest & Hlen & Hrest & Hs)%strptime_fields.
  destruct pre as [|a [|b [|c [|d [|e [|]]]]]]; try discriminate.
  unfold slice_from. rewrite Hs. cbn [skipn app]. split.
  - destruct rest; [easy|reflexivity].
  - exists (string_of_list_ascii [a; b; c; d; e]). split; [reflexivity|].
    rewrite <- (string_of_list_ascii_of_string s) at 1. now rewrite Hs.
Qed.

(** The two digits of a day spell it. *)
Lemma two_digits_day (d : Z) :
  1 <= d <= 31 ->
  String.length (two_digits d) = 2%nat /\ int (two_digits d) = Some d.
Proof.
  intros H. split; [reflexivity|].
  assert (Hall : forallb (fun d => match int (two_digits d) with
                                   | Some d' => d' =? d
                                   | None => false
                                   end) (range 1 32) = true)
    by (vm_compute; reflexivity).
  rewrite forallb_forall in Hall. specialize (Hall d).
  destruct (int (two_digits d)) as [d'|].
  - f_equal. apply Z.eqb_eq, Hall, in_range. lia.
  - discriminate Hall. apply in_range. lia.
Qed.

Lemma month_name_full (m : Z) :
  1 <= m <= 12 ->
  In (month_name m)
     ["January"; "February"; "March"; "April"; "May"; "June"; "July";
      "August"; "September"; "October"; "November"; "December"]
  /\ nth_error
       ["January"; "February"; "March"; "April"; "May"; "June"; "July";
        "August"; "September"; "October"; "November"; "December"]
       (Z.to_nat (m - 1)) = Some (month_name m).
Proof.
  intros H.
  assert (Hm : In m (range 1 13)) by (apply in_range; lia).
  cbn in Hm. repeat (destruct Hm as [<-|Hm]; [cbn; intuition auto|]).
  destruct Hm.
Qed.

(* ================================================================= *)
(** ** The handler, case by case *)

Lemma bind_ext {A B} (m : io A) (k k' : A -> io B) :
  (forall a, k a = k' a) -> bind m k = bind m k'.
Proof.
  intros H. destruct m as [t [a|e]]; cbn; [|reflexivity]. now rewrite H.
Qed.

(** A computation that ends well after a [bind]: both parts ended well. *)
Lemma bind_ok {A B} (m : io A) (k : A -> io B) (t : list event) (b : B) :
  bind m k = (t, Ok b) ->
  exists t1 a t2, m = (t1, Ok a) /\ k a = (t2, Ok b) /\ t = (t1 ++ t2)%list.
Proof.
  destruct m as [t1 [a|e]]; cbn; [|discriminate].
  destruct (k a) as [t2 r] eqn:Hk. intros [= <- ->]. now exists t1, a, t2.
Qed.

Section Index.

Variable requests_get : http_request -> result response.
Variable now1 now2 : datetime.
Variable form : list (string * string).

Local Notation "'dv'" := (date_field form).
Local Notation "'cy'" := (year now1).

(** A date that does not parse: nothing is fetched. *)
Lemma index_invalid_date :
  strptime dv = None ->
  index requests_get now1 now2 (POST form) =
  ([], Ok (let '(err, s, e) :=
             parse_years (Some invalid_date) (start_field form) (end_field form) cy in
           Context err None dv s e "" cy)).
Proof.
  intros H. unfold index, parse_date. fold (date_field form).
  fold (start_field form). fold (end_field form). rewrite H.
  unfold parse_years, invalid_date.
  destruct (read_years _ _ _) as [[s e]|]; reflexivity.
Qed.

(** A year field that is not a number: nothing is fetched. *)
Lemma index_invalid_years :
  read_years (start_field form) (end_field form) cy = None ->
  index requests_get now1 now2 (POST form) =
  ([], Ok (let '(err, _, pretty) := parse_date None dv "" in
           Context (Some (append_error err invalid_years)) None dv 1990 cy
             pretty cy)).
Proof.
  intros H. unfold index, parse_years. fold (date_field form).
  fold (start_field form). fold (end_field form). rewrite H.
  unfold parse_date. destruct (strptime dv); reflexivity.
Qed.

(** A valid submission: the clamp, the loop, the sort. *)
Lemma index_valid (dt : datetime) (s e : Z) :
  strptime dv = Some dt ->
  read_years (start_field form) (end_field form) cy = Some (s, e) ->
  index requests_get now1 now2 (POST form) =
  (fetched <- fetch_years requests_get (slice_from 5 dv)
                (range s (snd (clamp_range None s e cy) + 1)) []
                (fst (clamp_range None s e cy)) ;;
   results <- lift (sort_results (fst fetched)) ;;
   ret (Context (snd fetched) (Some results) dv s
          (snd (clamp_range None s e cy)) (strftime_B_d dt) cy)).
Proof.
  intros Hd Hy. unfold index, parse_date, parse_years. fold (date_field form).
  fold (start_field form). fold (end_field form). rewrite Hd, Hy.
  cbn [opt_truthy]. rewrite (proj1 (slice_from_parsed _ _ Hd)).
  destruct (clamp_range None s e cy) as [err e']. cbn [fst snd].
  apply bind_ext. intros [rs err']. reflexivity.
Qed.

(** A valid submission that is rendered. *)
Lemma index_rendered (dt : datetime) (s e : Z) (t : list event) (ctx : context) :
  strptime dv = Some dt ->
  read_years (start_field form) (end_field form) cy = Some (s, e) ->
  index requests_get now1 now2 (POST form) = (t, Ok ctx) ->
  let mm_dd := slice_from 5 dv in
  let end_year := snd (clamp_range None s e cy) in
  let years := range s (end_year + 1) in
  t = loop_trace requests_get mm_dd years
  /\ exists rs,
       sort_results (collected requests_get mm_dd years) = Ok rs
       /\ ctx = Context (loop_error requests_get mm_dd years
                           (fst (clamp_range None s e cy)))
                  (Some rs) dv s end_year (strftime_B_d dt) cy.
Proof.
  intros Hd Hy. rewrite (index_valid dt s e Hd Hy).
  intros (t1 & [rs err] & t2 & Hf & Hk & ->)%bind_ok.
  apply fetch_years_ok in Hf as [-> [= -> ->]].
  apply bind_ok in Hk as (t3 & rs' & t4 & Hs & Hr & ->).
  unfold lift in Hs. cbn [fst snd] in Hs, Hr. unfold ret in Hr.
  injection Hs as <- Hs. injection Hr as <- <-.
  rewrite !app_nil_r. split; [reflexivity|]. now exists rs'.
Qed.

(** A valid submission to a catalog of well-formed documents. *)
Lemma index_catalog (dt : datetime) (s e : Z) :
  catalog requests_get ->
  strptime dv = Some dt ->
  read_years (start_field form) (end_field form) cy = Some (s, e) ->
  let mm_dd := slice_from 5 dv in
  let end_year := snd (clamp_range None s e cy) in
  let years := range s (end_year + 1) in
  index requests_get now1 now2 (POST form) =
  (loop_trace requests_get mm_dd years,
   Ok (Context (loop_error requests_get mm_dd years
                  (fst (clamp_range None s e cy)))
         (Some (sort_by_key (collected requests_get mm_dd years)))
         dv s end_year (strftime_B_d dt) cy)).
Proof.
  intros Hc Hd Hy. cbv zeta. rewrite (index_valid dt s e Hd Hy).
  rewrite fetch_years_spec by now apply catalog_handled.
  unfold bind, lift, ret. cbn [fst snd app].
  rewrite sort_results_keyed by now apply catalog_collected_keyed.
  now rewrite !app_nil_r.
Qed.

(** Every submission is of one of the three kinds. *)
Lemma index_kinds :
  strptime dv = None
  \/ read_years (start_field form) (end_field form) cy = None
  \/ exists dt s e,
       strptime dv = Some dt
       /\ read_years (start_field form) (end_field form) cy = Some (s, e).
Proof.
  destruct (strptime dv) as [dt|]; [|now left].
  destruct (read_years _ _ _) as [[s e]|]; [|now right; left].
  right; right. now exists dt, s, e.
Qed.

End Index.

(* ================================================================= *)
(** ** Requests, provenance of the records *)

Section Provenance.

Variable requests_get : http_request -> result response.
Variable mm_dd : string.

Lemma failure_none_visited (ys : list Z) :
  failure requests_get mm_dd ys = None -> visited requests_get mm_dd ys = ys.
Proof.
  induction ys as [|y ys IH]; cbn [failure visited]; [reflexivity|].
  destruct (search_outcome requests_get mm_dd y); [|discriminate].
  intros H. now rewrite (IH H).
Qed.

Lemma visited_incl (ys : list Z) (y : Z) :
  In y (visited requests_get mm_dd ys) ->
  In y ys /\ exists v, search_outcome requests_get mm_dd y = Ok v.
Proof.
  induction ys as [|y' ys IH]; cbn [visited]; [easy|].
  destruct (search_outcome requests_get mm_dd y') as [v|e] eqn:Ho; [|easy].
  intros [<-|H]; [split; [now left|now exists v]|].
  destruct (IH H) as [Hin Hv]. split; [now right|exact Hv].
Qed.

(** The requests of the loop are those of the years attempted. *)
Lemma gets_loop_trace (ys : list Z) :
  gets (loop_trace requests_get mm_dd ys)
  = map (request_for mm_dd) (attempted requests_get mm_dd ys).
Proof.
  unfold loop_trace, attempted, gets. rewrite flat_map_app, map_app. f_equal.
  - induction (visited requests_get mm_dd ys) as [|y l IH]; [reflexivity|].
    cbn. now rewrite <- IH.
  - destruct (failure requests_get mm_dd ys) as [[y e]|]; reflexivity.
Qed.

Lemma collect_from (y : Z) (items : list value) (acc rs : list Release) (x : Release) :
  collect y items acc = Ok rs -> In x rs ->
  In x acc \/ exists r, In r items /\ release_of y r = Ok x.
Proof.
  revert acc. induction items as [|r items IH]; cbn [collect]; intros acc.
  - intros [= <-]. auto.
  - destruct (release_of y r) as [x'|e] eqn:Hr; cbn [rbind]; [|discriminate].
    intros Hc Hin. destruct (IH _ Hc Hin) as [Hacc|(r' & Hr' & Hx)].
    + apply in_app_or in Hacc as [Hacc|[<-|[]]]; [now left|].
      right. exists r. split; [now left|exact Hr].
    + right. exists r'. split; [now right|exact Hx].
Qed.

(** A record collected over some years is the record of an entry of the
    answer for one of them. *)
Lemma collected_from (ys : list Z) (x : Release) :
  In x (collected requests_get mm_dd ys) ->
  exists y releases items r,
    In y ys /\ search_outcome requests_get mm_dd y = Ok releases
    /\ iter releases = Ok items /\ In r items /\ release_of y r = Ok x.
Proof.
  unfold collected. rewrite in_flat_map. intros (y & (Hy & _)%visited_incl & Hx).
  unfold records_of, year_records in Hx.
  destruct (search_outcome requests_get mm_dd y) as [releases|e] eqn:Ho; [|easy].
  cbn [rbind] in Hx. destruct (iter releases) as [items|e] eqn:Hi; [|easy].
  cbn [rbind] in Hx. destruct (collect y items []) as [rs|e] eqn:Hc; [|easy].
  destruct (collect_from _ _ _ _ _ Hc Hx) as [[]|(r & Hr & Hrel)].
  exists y, releases, items, r. auto 10.
Qed.

End Provenance.

Lemma deep_link_eq (kv : list (string * value)) :
  (if truthy match lookup "id" kv with Some v => v | None => VNone end
   then VStr ("https://musicbrainz.org/release/"
              ++ str match lookup "id" kv with Some v => v | None => VNone end)
   else VNone) = deep_link (VDict kv).
Proof.
  unfold deep_link, field.
  destruct (lookup "id" kv) as [[|[|]|[|p|p]|[|c s]|[|v l]|[|p l]]|]; reflexivity.
Qed.

(** What the record of an entry holds. *)
Lemma release_of_fields (y : Z) (r : value) (x : Release) :
  release_of y r = Ok x ->
  x = mkRelease y (field "title" r) (first_credit_name r) (field "date" r)
        (deep_link r).
Proof.
  unfold release_of, first_credit_name.
  destruct r as [| | | | |kv]; try discriminate. cbn [get rbind field].
  rewrite deep_link_eq.
  generalize (match lookup "artist-credit" kv with Some v => v | None => VNone end).
  intros ac.
  destruct ac as [|[|]|[|p|p]|[|c s]|[|ac0 l]|[|p l]]; cbn;
    try (intros [= <-]; reflexivity).
  destruct ac0 as [| | |s| |ckv]; cbn; try discriminate.
  - destruct (substring_of "name" s); cbn; [discriminate|].
    intros [= <-]; reflexivity.
  - destruct (existsb _ _); cbn; [discriminate|]. intros [= <-]; reflexivity.
  - destruct (lookup "name" ckv); cbn; intros [= <-]; reflexivity.
Qed.

(** A field of blanks is read as empty. *)
Lemma strip_blank (s : string) :
  forallb is_space (list_ascii_of_string s) = true -> strip s = "".
Proof.
  unfold strip. intros H.
  assert (Hl : forall l, forallb is_space l = true -> lstrip l = []).
  { induction l as [|c l IH]; cbn; [reflexivity|].
    intros [-> Hl]%andb_prop. now apply IH. }
  now rewrite (Hl _ H).
Qed.

(* ================================================================= *)
(** ** One request per year *)

Lemma length_append (s t : string) :
  String.length (s ++ t) = (String.length s + String.length t)%nat.
Proof. induction s as [|c s IH]; cbn; congruence. Qed.

Lemma append_cancel_r (s1 s2 t : string) : s1 ++ t = s2 ++ t -> s1 = s2.
Proof.
  intros H.
  assert (Hlen : String.length s1 = String.length s2).
  { apply (f_equal String.length) in H. rewrite !length_append in H. lia. }
  revert s2 H Hlen.
  induction s1 as [|c s1 IH]; intros [|c' s2]; cbn; try discriminate.
  - reflexivity.
  - intros [= -> H] [= Hlen]. f_equal. now apply IH.
Qed.

(** Two numbers are written differently. *)
Lemma str_of_int_inj (a b : Z) : str_of_int a = str_of_int b -> a = b.
Proof.
  unfold str_of_int. intros H. apply to_int_inj.
  assert (Hn : forall z, Z.to_int z <> Decimal.Pos Decimal.Nil
                         /\ Z.to_int z <> Decimal.Neg Decimal.Nil).
  { intros [|p|p]; cbn; split; try discriminate; intros [= Hp];
      now apply Unsigned.to_uint_nonnil in Hp. }
  apply (f_equal NilZero.int_of_string) in H.
  rewrite !NilZero.isi in H by apply Hn. congruence.
Qed.

(** The requests of two years differ. *)
Lemma request_for_inj (mm_dd : string) (y y' : Z) :
  request_for mm_dd y = request_for mm_dd y' -> y = y'.
Proof.
  unfold request_for. intros [= H]. apply str_of_int_inj.
  apply (append_cancel_r _ _ ("-" ++ mm_dd)), H.
Qed.

(* ================================================================= *)
(** ** The sample catalog *)

Lemma sample_catalog_well_formed : catalog sample_catalog.
Proof.
  intros req. unfold sample_catalog.
  repeat destruct (_ =? _)%string; reflexivity.
Qed.

Lemma outage_well_formed : catalog outage.
Proof. intros req. reflexivity. Qed.

(* ================================================================= *)
(** ** Properties of the handler *)

(** C1. When the search of a year [y] of the range raises (a transport
    error, an HTTP status error, or any other exception of the call) and the
    searches of the years before it did not, the loop ends at [y]: the
    requests sent are those of the years from the first to [y], each but the
    last followed by the pause, and none is sent for a later year; the page
    holds exactly the records of the years before [y]; and its banner names
    [y] and carries the text of the exception. *)
Theorem failed_year_ends_the_loop
    (requests_get : http_request -> result response) (now1 now2 : datetime)
    (form : list (string * string)) (dt : datetime) (s e y : Z) (ex : exn) :
  catalog requests_get ->
  strptime (date_field form) = Some dt ->
  read_years (start_field form) (end_field form) (year now1) = Some (s, e) ->
  let mm_dd := slice_from 5 (date_field form) in
  let last := snd (clamp_range None s e (year now1)) in
  s <= y <= last ->
  (forall y', s <= y' < y -> exists v, search_outcome requests_get mm_dd y' = Ok v) ->
  search_outcome requests_get mm_dd y = Raised ex ->
  exists t rs,
    index requests_get now1 now2 (POST form)
    = (t,
       Ok (Context
             (Some ((if is_HTTPError ex
                     then "HTTP error for year " else "Error for year ")
                    ++ str_of_int y ++ ": " ++ str_e ex))
             (Some rs) (date_field form) s last (strftime_B_d dt) (year now1)))
    /\ t = (flat_map (fun y' => [Get (request_for mm_dd y'); Sleep 100]) (range s y)
            ++ [Get (request_for mm_dd y)])%list
    /\ (forall y', y < y' -> ~ In (Get (request_for mm_dd y')) t)
    /\ Permutation rs (flat_map (records_of requests_get mm_dd) (range s y)).
Proof.
  intros Hc Hd Hy mm_dd last Hin Hbefore Hfail.
  eexists _, (sort_by_key (flat_map (records_of requests_get mm_dd) (range s y))).
  split; [|split; [reflexivity|split; [|symmetry; apply sort_by_key_perm]]].
  - rewrite (index_catalog _ _ _ _ dt s e Hc Hd Hy). fold mm_dd last.
    rewrite (range_split s (last + 1) y) by lia.
    destruct (visited_until requests_get mm_dd (range s y)
                (range (y + 1) (last + 1)) y ex) as [Hv Hf]; [|exact Hfail|].
    { intros y' Hy'%in_range. now apply Hbefore. }
    unfold loop_trace, loop_error, collected. rewrite Hv, Hf. reflexivity.
  - assert (Hget : forall a b, Get (request_for mm_dd a) = Get (request_for mm_dd b)
                               -> a = b).
    { intros a b Heq. apply (request_for_inj mm_dd). congruence. }
    intros y' Hlater [Hpre|[Heq|[]]]%in_app_or.
    + apply in_flat_map in Hpre as (y0 & Hy0%in_range & [Heq|[Heq|[]]]);
        [|discriminate].
      apply Hget in Heq. lia.
    + apply Hget in Heq. lia.
Qed.

Lemma failed_year_ends_the_loop_witness :
  exists t rs,
    index sample_catalog sample_now sample_now
      (POST (submission "2019-11-22" "2018" "2020"))
    = (t,
       Ok (Context
             (Some "HTTP error for year 2020: 503 Server Error: Service Unavailable")
             (Some rs) "2019-11-22" 2018 2020 "November 22" 2025))
    /\ t = [Get (request_for "11-22" 2018); Sleep 100;
            Get (request_for "11-22" 2019); Sleep 100;
            Get (request_for "11-22" 2020)]
    /\ (forall y', 2020 < y' -> ~ In (Get (request_for "11-22" y')) t)
    /\ Permutation rs
         (flat_map (records_of sample_catalog "11-22") [2018; 2019]).
Proof.
  apply (failed_year_ends_the_loop sample_catalog sample_now sample_now
           (submission "2019-11-22" "2018" "2020") (Datetime 2019 11 22)
           2018 2020 2020 unavailable).
  - exact sample_catalog_well_formed.
  - reflexivity.
  - reflexivity.
  - cbn. lia.
  - intros y' Hy'. assert (H : y' = 2018 \/ y' = 2019) by lia.
    destruct H as [-> | ->]; eexists; vm_compute; reflexivity.
  - reflexivity.
Defined.

(** C2, as stated, fails on a submission with a year field that is not a
    number: the resolved years are the defaults 1990 and 2025, a span of 36
    years, and the handler neither clamps the end year to
    [min (1990 + 25 - 1) 2025] nor warns nor fetches. *)
Lemma span_not_clamped_after_year_error :
  parse_years None (start_field (submission "2019-11-22" "abc" ""))
    (end_field (submission "2019-11-22" "abc" "")) 2025
  = (Some invalid_years, 1990, 2025)
  /\ MAX_YEARS_PER_REQUEST < 2025 - 1990 + 1
  /\ index sample_catalog sample_now sample_now
       (POST (submission "2019-11-22" "abc" ""))
     = ([], Ok (Context (Some "Start/end year must be numbers.") None
                  "2019-11-22" 1990 2025 "November 22" 2025))
  /\ 2025 <> Z.min (1990 + MAX_YEARS_PER_REQUEST - 1) 2025.
Proof. repeat split; try reflexivity. discriminate. Qed.

(** C2, amended. For a submission with no validation error (the date parses,
    each year field is blank or a number) whose resolved span exceeds
    [MAX_YEARS_PER_REQUEST] and can be written (it has at most
    [int_max_str_digits] digits: the warning writes it outside any [try]),
    the loop is run over the years from the start
    year to [min (start + 25 - 1) current_year], with the clamp warning as the
    banner when it starts, and the page shows that end year.  With a catalog
    of well-formed documents the page is rendered with its summary, the
    requests sent are those of the years of the clamped range up to the first
    failure, and the banner is the clamp warning when no search fails. *)
Theorem oversized_span_is_clamped
    (requests_get : http_request -> result response) (now1 now2 : datetime)
    (form : list (string * string)) (dt : datetime) (s e : Z) :
  strptime (date_field form) = Some dt ->
  read_years (start_field form) (end_field form) (year now1) = Some (s, e) ->
  MAX_YEARS_PER_REQUEST < e - s + 1 ->
  str_writable (e - s + 1) = true ->
  let mm_dd := slice_from 5 (date_field form) in
  let last := Z.min (s + MAX_YEARS_PER_REQUEST - 1) (year now1) in
  let warning :=
    "Year range too large (" ++ str_of_int (e - s + 1) ++ " years). "
    ++ "Showing only " ++ str_of_int s ++ en_dash ++ str_of_int last ++ ". "
    ++ "Try smaller chunks like 1990" ++ en_dash ++ "2010, then 2011" ++ en_dash
    ++ str_of_int (year now1) ++ "." in
  index requests_get now1 now2 (POST form)
  = (fetched <- fetch_years requests_get mm_dd (range s (last + 1)) []
                  (Some warning) ;;
     results <- lift (sort_results (fst fetched)) ;;
     ret (Context (snd fetched) (Some results) (date_field form) s last
            (strftime_B_d dt) (year now1)))
  /\ (catalog requests_get ->
      exists t ctx,
        index requests_get now1 now2 (POST form) = (t, Ok ctx)
        /\ start_year ctx = s /\ end_year ctx = last
        /\ shows_summary ctx = true
        /\ gets t = map (request_for mm_dd)
                      (attempted requests_get mm_dd (range s (last + 1)))
        /\ (failure requests_get mm_dd (range s (last + 1)) = None ->
            error ctx = Some warning
            /\ gets t = map (request_for mm_dd) (range s (last + 1)))).
Proof.
  intros Hd Hy Hspan _ mm_dd last warning.
  assert (Hclamp : clamp_range None s e (year now1) = (Some warning, last)).
  { unfold clamp_range. rewrite (proj2 (Z.ltb_lt _ _) Hspan).
    unfold warning, last, clamp_warning, append_error. cbn [opt_truthy].
    destruct (Z.ltb_spec (year now1) (s + MAX_YEARS_PER_REQUEST - 1)).
    - rewrite Z.min_r by lia. reflexivity.
    - rewrite Z.min_l by lia. reflexivity. }
  split.
  - rewrite (index_valid _ _ _ _ dt s e Hd Hy), Hclamp. reflexivity.
  - intros Hc. rewrite (index_catalog _ _ _ _ dt s e Hc Hd Hy), Hclamp.
    cbn [fst snd]. fold mm_dd. eexists _, _. split; [reflexivity|].
    cbn [start_year end_year error]. repeat split.
    + apply gets_loop_trace.
    + unfold loop_error. now rewrite H.
    + rewrite gets_loop_trace. unfold attempted.
      rewrite (failure_none_visited _ _ _ H), H. now rewrite app_nil_r.
Qed.

Lemma oversized_span_is_clamped_witness :
  exists t ctx,
    index sample_catalog sample_now sample_now
      (POST (submission "2019-11-22" "1995" "")) = (t, Ok ctx)
    /\ start_year ctx = 1995 /\ end_year ctx = 2019
    /\ shows_summary ctx = true
    /\ error ctx
       = Some ("Year range too large (31 years). Showing only 1995"
               ++ en_dash ++ "2019. Try smaller chunks like 1990"
               ++ en_dash ++ "2010, then 2011" ++ en_dash ++ "2025.")
    /\ gets t = map (request_for "11-22") (range 1995 (2019 + 1)).
Proof.
  destruct (oversized_span_is_clamped sample_catalog sample_now sample_now
              (submission "2019-11-22" "1995" "") (Datetime 2019 11 22)
              1995 2025) as [_ Hpage];
    [reflexivity|reflexivity|reflexivity|reflexivity|].
  destruct (Hpage sample_catalog_well_formed)
    as (t & ctx & Hi & Hs & He & Hsum & _ & Hnone).
  destruct Hnone as [Herr Hgets]; [vm_compute; reflexivity|].
  exists t, ctx. auto 10.
Defined.

(** C3. The banner of a failed year replaces the banner recorded before the
    loop.  For the span 1990-2020, clamped to 1990-2014, and a catalog that is
    down, the clamp warning is recorded when the loop starts, and the page
    shows the failure of 1990 alone. *)
Theorem failure_banner_replaces_clamp_warning :
  fst (clamp_range None 1990 2020 2025)
  = Some (clamp_warning 31 1990 2014 2025)
  /\ index outage sample_now sample_now
       (POST (submission "2019-11-22" "1990" "2020"))
     = ([Get (request_for "11-22" 1990)],
        Ok (Context
              (Some "HTTP error for year 1990: 503 Server Error: Service Unavailable")
              (Some []) "2019-11-22" 1990 2014 "November 22" 2025))
  /\ substring_of "Year range too large"
       "HTTP error for year 1990: 503 Server Error: Service Unavailable"
     = false.
Proof. repeat split; vm_compute; reflexivity. Qed.

(** C4. A date that is not of the format [YYYY-MM-DD] and that [strptime]
    takes all the same, a month and a day of one digit: no banner is
    recorded, the key cut at line 199 is [1-5], not a month and a day of two
    digits, and the request of the year is sent with it. *)
Theorem one_digit_date_is_fetched :
  strict_format "2019-1-5" = false
  /\ strptime "2019-1-5" = Some (Datetime 2019 1 5)
  /\ index sample_catalog sample_now sample_now
       (POST (submission "2019-1-5" "2018" "2018"))
     = ([Get (request_for "1-5" 2018); Sleep 100],
        Ok (Context None (Some []) "2019-1-5" 2018 2018 "January 05" 2025))
  /\ query_of (request_for "1-5" 2018) = "date:2018-1-5".
Proof. repeat split; vm_compute; reflexivity. Qed.

(** X18. A date that [strptime] rejects: the page is rendered with no event
    at all (no request is sent), without results, and with the banner of the
    invalid date, followed by the banner of the years when a year field is
    not a number. *)
Theorem invalid_date_skips_the_fetch
    (requests_get : http_request -> result response) (now1 now2 : datetime)
    (form : list (string * string)) :
  strptime (date_field form) = None ->
  exists ctx,
    index requests_get now1 now2 (POST form) = ([], Ok ctx)
    /\ results ctx = None
    /\ shows_error ctx = true
    /\ (error ctx = Some "Invalid date. Please use the date picker."
        \/ error ctx = Some ("Invalid date. Please use the date picker."
                             ++ " | " ++ "Start/end year must be numbers.")).
Proof.
  intros H. rewrite (index_invalid_date _ _ _ _ H). unfold parse_years.
  destruct (read_years _ _ _) as [[s e]|]; eexists; (split; [reflexivity|]);
    cbn; auto.
Qed.

Lemma invalid_date_skips_the_fetch_witness :
  exists ctx,
    index sample_catalog sample_now sample_now
      (POST (submission "22/11/2019" "2018" "2019")) = ([], Ok ctx)
    /\ results ctx = None
    /\ shows_error ctx = true
    /\ (error ctx = Some "Invalid date. Please use the date picker."
        \/ error ctx = Some ("Invalid date. Please use the date picker."
                             ++ " | " ++ "Start/end year must be numbers.")).
Proof.
  apply (invalid_date_skips_the_fetch sample_catalog sample_now sample_now
           (submission "22/11/2019" "2018" "2019")).
  reflexivity.
Defined.

(** C5. A submission with a validation error (the date does not parse, or a
    year field is not a number): the page is rendered with no event at all,
    with no results, hence neither summary nor table; its years are the
    resolved ones, whatever their span, and its banner holds the validation
    messages only. *)
Theorem validation_error_skips_the_fetch
    (requests_get : http_request -> result response) (now1 now2 : datetime)
    (form : list (string * string)) :
  strptime (date_field form) = None
  \/ read_years (start_field form) (end_field form) (year now1) = None ->
  exists ctx,
    index requests_get now1 now2 (POST form) = ([], Ok ctx)
    /\ results ctx = None
    /\ shows_summary ctx = false /\ shows_table ctx = false
    /\ (let '(err, _, _) := parse_date None (date_field form) "" in
        parse_years err (start_field form) (end_field form) (year now1)
        = (error ctx, start_year ctx, end_year ctx))
    /\ In (error ctx)
         [Some "Invalid date. Please use the date picker.";
          Some "Start/end year must be numbers.";
          Some ("Invalid date. Please use the date picker."
                ++ " | " ++ "Start/end year must be numbers.")].
Proof.
  intros [H|H].
  - rewrite (index_invalid_date _ _ _ _ H). unfold parse_date, parse_years.
    rewrite H. destruct (read_years _ _ _) as [[s e]|]; eexists;
      (split; [reflexivity|]); cbn; auto 10.
  - rewrite (index_invalid_years _ _ _ _ H). unfold parse_date, parse_years.
    rewrite H. destruct (strptime _); eexists;
      (split; [reflexivity|]); cbn; auto 10.
Qed.

Lemma validation_error_skips_the_fetch_witness :
  exists ctx,
    index sample_catalog sample_now sample_now
      (POST (submission "2019-11-22" "abc" "")) = ([], Ok ctx)
    /\ results ctx = None
    /\ shows_summary ctx = false /\ shows_table ctx = false
    /\ (let '(err, _, _) := parse_date None "2019-11-22" "" in
        parse_years err "abc" "" 2025
        = (error ctx, start_year ctx, end_year ctx))
    /\ In (error ctx)
         [Some "Invalid date. Please use the date picker.";
          Some "Start/end year must be numbers.";
          Some ("Invalid date. Please use the date picker."
                ++ " | " ++ "Start/end year must be numbers.")].
Proof.
  apply (validation_error_skips_the_fetch sample_catalog sample_now sample_now
           (submission "2019-11-22" "abc" "")).
  right. reflexivity.
Defined.

(** C6. The records of a rendered page are in ascending order of the key
    (year, artist, title), an absent artist or title counting as the empty
    string, which is below every other string; they are a permutation of the
    records collected, the years in increasing order and the records of a
    year in the order of its answer; and the records of one key stand in the
    order in which they were collected. *)
Theorem results_are_sorted_stably
    (requests_get : http_request -> result response) (now1 now2 : datetime)
    (form : list (string * string)) (t : list event) (ctx : context)
    (rs : list Release) :
  catalog requests_get ->
  index requests_get now1 now2 (POST form) = (t, Ok ctx) ->
  results ctx = Some rs ->
  let in_order :=
    collected requests_get (slice_from 5 (date_field form))
      (range (start_year ctx) (end_year ctx + 1)) in
  StronglySorted (fun a b => key_le (key a) (key b)) rs
  /\ Permutation in_order rs
  /\ (forall k, with_key k rs = with_key k in_order)
  /\ (forall x, In x rs ->
        (r_artist x = VNone -> text (r_artist x) = "")
        /\ (r_title x = VNone -> text (r_title x) = "")
        /\ sort_key x = (r_year x, VStr (text (r_artist x)), VStr (text (r_title x))))
  /\ (forall c s, str_lt "" (String c s)).
Proof.
  intros Hc Hi Hrs.
  destruct (index_kinds now1 form) as [H|[H|(dt & s & e & Hd & Hy)]].
  - rewrite (index_invalid_date _ _ _ _ H) in Hi. exfalso.
    destruct (parse_years _ _ _ _) as [[err s] e]. injection Hi as _ <-.
    discriminate.
  - rewrite (index_invalid_years _ _ _ _ H) in Hi. exfalso.
    destruct (parse_date _ _ _) as [[err md] pretty]. injection Hi as _ <-.
    discriminate.
  - rewrite (index_catalog _ _ _ _ dt s e Hc Hd Hy) in Hi.
    injection Hi as _ <-. cbn [results start_year end_year] in *.
    injection Hrs as <-. cbv zeta.
    split; [apply sort_by_key_ordered|].
    split; [apply sort_by_key_perm|].
    split; [intros k; apply sort_by_key_stable|].
    split; [|reflexivity].
    intros x Hx. split; [now intros ->|]. split; [now intros ->|].
    apply sort_key_text.
    assert (Hk := catalog_collected_keyed requests_get
                    (slice_from 5 (date_field form)) Hc
                    (range s (snd (clamp_range None s e (year now1)) + 1))).
    rewrite forallb_forall in Hk. apply Hk.
    eapply Permutation_in; [symmetry; apply sort_by_key_perm|exact Hx].
Qed.

Lemma results_are_sorted_stably_witness :
  let in_order := collected sample_catalog "11-22" (range 2018 (2019 + 1)) in
  StronglySorted (fun a b => key_le (key a) (key b)) sample_records
  /\ Permutation in_order sample_records
  /\ (forall k, with_key k sample_records = with_key k in_order)
  /\ (forall x, In x sample_records ->
        (r_artist x = VNone -> text (r_artist x) = "")
        /\ (r_title x = VNone -> text (r_title x) = "")
        /\ sort_key x = (r_year x, VStr (text (r_artist x)), VStr (text (r_title x))))
  /\ (forall c s, str_lt "" (String c s)).
Proof.
  apply (results_are_sorted_stably sample_catalog sample_now sample_now
           (submission "2019-11-22" "2018" "2019")
           [Get (request_for "11-22" 2018); Sleep 100;
            Get (request_for "11-22" 2019); Sleep 100]
           (Context None (Some sample_records) "2019-11-22" 2018 2019
              "November 22" 2025)
           sample_records).
  - exact sample_catalog_well_formed.
  - vm_compute. reflexivity.
  - reflexivity.
Defined.

(** C7. Every record of a rendered page is the record of an entry [r] of the
    answer to the search of a year [y] of the range: its year is [y]; its
    title and its date are the values of the entry (absent when the entry
    has none); its artist is the name of the first credit when the
    artist-credit is a non-empty list whose first credit has a name, and
    absent otherwise; its link is built from the identifier when the entry
    has one (a value that is not null, empty or zero), and absent
    otherwise. *)
Theorem record_of_an_entry
    (requests_get : http_request -> result response) (now1 now2 : datetime)
    (form : list (string * string)) (t : list event) (ctx : context)
    (rs : list Release) (x : Release) :
  index requests_get now1 now2 (POST form) = (t, Ok ctx) ->
  results ctx = Some rs ->
  In x rs ->
  exists y releases items r,
    start_year ctx <= y <= end_year ctx
    /\ search_outcome requests_get (slice_from 5 (date_field form)) y = Ok releases
    /\ iter releases = Ok items /\ In r items
    /\ x = mkRelease y (field "title" r) (first_credit_name r) (field "date" r)
             (deep_link r)
    /\ (r_url x = VNone <-> truthy (field "id" r) = false)
    /\ (forall mbid, field "id" r = VStr mbid -> mbid <> "" ->
        r_url x = VStr ("https://musicbrainz.org/release/" ++ mbid))
    /\ (forall credit0 credits name,
          field "artist-credit" r = VList (VDict credit0 :: credits) ->
          lookup "name" credit0 = Some name -> r_artist x = name).
Proof.
  intros Hi Hrs Hx.
  destruct (index_kinds now1 form) as [H|[H|(dt & s & e & Hd & Hy)]].
  - rewrite (index_invalid_date _ _ _ _ H) in Hi. exfalso.
    destruct (parse_years _ _ _ _) as [[err s] e]. injection Hi as _ <-.
    discriminate.
  - rewrite (index_invalid_years _ _ _ _ H) in Hi. exfalso.
    destruct (parse_date _ _ _) as [[err md] pretty]. injection Hi as _ <-.
    discriminate.
  - destruct (index_rendered _ _ _ _ dt s e t ctx Hd Hy Hi) as (_ & rs' & Hs & ->).
    cbn [results start_year end_year] in *. injection Hrs as ->.
    apply sort_results_perm in Hs.
    apply (Permutation_in _ (Permutation_sym Hs)) in Hx.
    apply collected_from in Hx as (y & releases & items & r & Hy' & Ho & Hit & Hr & Hrel).
    apply in_range in Hy'. apply release_of_fields in Hrel.
    exists y, releases, items, r.
    split; [lia|]. split; [exact Ho|]. split; [exact Hit|]. split; [exact Hr|].
    split; [exact Hrel|]. subst x. cbn [r_url r_artist].
    unfold deep_link, first_credit_name. split; [|split].
    + destruct (field "id" r) as [|[|]|[|p|p]|[|c m]|[|v l]|[|p l]]; cbn;
        split; congruence.
    + intros mbid -> Hne. destruct mbid; [easy|reflexivity].
    + intros credit0 credits name -> ->. reflexivity.
Qed.

Lemma record_of_an_entry_witness :
  exists y releases items r,
    2018 <= y <= 2019
    /\ search_outcome sample_catalog "11-22" y = Ok releases
    /\ iter releases = Ok items /\ In r items
    /\ mkRelease 2018 (VStr "Hello") (VStr "Adele") (VStr "2018-11-22")
         (VStr "https://musicbrainz.org/release/a2")
       = mkRelease y (field "title" r) (first_credit_name r) (field "date" r)
           (deep_link r)
    /\ (VStr "https://musicbrainz.org/release/a2" = VNone
        <-> truthy (field "id" r) = false)
    /\ (forall mbid, field "id" r = VStr mbid -> mbid <> "" ->
        VStr "https://musicbrainz.org/release/a2"
        = VStr ("https://musicbrainz.org/release/" ++ mbid))
    /\ (forall credit0 credits name,
          field "artist-credit" r = VList (VDict credit0 :: credits) ->
          lookup "name" credit0 = Some name -> VStr "Adele" = name).
Proof.
  apply (record_of_an_entry sample_catalog sample_now sample_now
           (submission "2019-11-22" "2018" "2019")
           [Get (request_for "11-22" 2018); Sleep 100;
            Get (request_for "11-22" 2019); Sleep 100]
           (Context None (Some sample_records)
              "2019-11-22" 2018 2019 "November 22" 2025)
           sample_records
           (mkRelease 2018 (VStr "Hello") (VStr "Adele") (VStr "2018-11-22")
              (VStr "https://musicbrainz.org/release/a2"))).
  - vm_compute. reflexivity.
  - reflexivity.
  - left. reflexivity.
Defined.

Lemma read_years_fields (start_str end_str : string) (cy s e : Z) :
  year_field start_str 1990 = Some s -> year_field end_str cy = Some e ->
  read_years start_str end_str cy = Some (Z.min s e, Z.max s e).
Proof.
  intros Hs He. unfold read_years. rewrite Hs, He.
  destruct (Z.ltb_spec e s); f_equal; f_equal; lia.
Qed.

Lemma read_years_none (start_str end_str : string) (cy : Z) :
  year_field start_str 1990 = None \/ year_field end_str cy = None ->
  read_years start_str end_str cy = None.
Proof.
  unfold read_years. intros [-> | H]; [reflexivity|].
  destruct (year_field start_str 1990); [now rewrite H|reflexivity].
Qed.

(** C8. Two year fields that are read as numbers (or left blank, and take
    their defaults) with the end below the start are swapped: the years
    resolved are the end and the start, and the banner is left as it was.
    The page shows the swapped start year, and the swapped end year unless
    their span is over the maximum and clamped. *)
Theorem reversed_years_are_swapped
    (requests_get : http_request -> result response) (now1 now2 : datetime)
    (form : list (string * string)) (s e : Z) :
  year_field (start_field form) 1990 = Some s ->
  year_field (end_field form) (year now1) = Some e ->
  e < s ->
  (forall err,
     parse_years err (start_field form) (end_field form) (year now1) = (err, e, s))
  /\ (forall t ctx,
        index requests_get now1 now2 (POST form) = (t, Ok ctx) ->
        start_year ctx = e
        /\ (end_year ctx = s
            \/ (MAX_YEARS_PER_REQUEST < s - e + 1
                /\ end_year ctx = Z.min (e + MAX_YEARS_PER_REQUEST - 1) (year now1)))).
Proof.
  intros Hs He Hlt.
  assert (Hr : read_years (start_field form) (end_field form) (year now1)
               = Some (e, s)).
  { rewrite (read_years_fields _ _ _ s e Hs He). f_equal. f_equal; lia. }
  split.
  - intros err. unfold parse_years. now rewrite Hr.
  - intros t ctx Hi.
    destruct (strptime (date_field form)) as [dt|] eqn:Hd.
    + destruct (index_rendered _ _ _ _ dt e s t ctx Hd Hr Hi) as (_ & rs & _ & ->).
      cbn [start_year end_year]. split; [reflexivity|].
      unfold clamp_range. destruct (Z.ltb_spec MAX_YEARS_PER_REQUEST (s - e + 1)).
      * right. split; [assumption|]. cbn [snd].
        destruct (Z.ltb_spec (year now1) (e + MAX_YEARS_PER_REQUEST - 1)); lia.
      * now left.
    + rewrite (index_invalid_date _ _ _ _ Hd) in Hi. unfold parse_years in Hi.
      rewrite Hr in Hi. injection Hi as _ <-. cbn. auto.
Qed.

Lemma reversed_years_are_swapped_witness :
  parse_years None "2019" "2018" 2025 = (None, 2018, 2019)
  /\ index sample_catalog sample_now sample_now
       (POST (submission "2019-11-22" "2019" "2018"))
     = ([Get (request_for "11-22" 2018); Sleep 100;
         Get (request_for "11-22" 2019); Sleep 100],
        Ok (Context None (Some sample_records) "2019-11-22" 2018 2019
              "November 22" 2025))
  /\ (2019 = 2019
      \/ (MAX_YEARS_PER_REQUEST < 2019 - 2018 + 1
          /\ 2019 = Z.min (2018 + MAX_YEARS_PER_REQUEST - 1) 2025)).
Proof.
  assert (Hrun : index sample_catalog sample_now sample_now
                   (POST (submission "2019-11-22" "2019" "2018"))
                 = ([Get (request_for "11-22" 2018); Sleep 100;
                     Get (request_for "11-22" 2019); Sleep 100],
                    Ok (Context None (Some sample_records) "2019-11-22" 2018
                          2019 "November 22" 2025)))
    by (vm_compute; reflexivity).
  destruct (reversed_years_are_swapped sample_catalog sample_now sample_now
              (submission "2019-11-22" "2019" "2018") 2019 2018)
    as [Hyears Hpage]; [reflexivity|reflexivity|lia|].
  split; [exact (Hyears None)|]. split; [exact Hrun|].
  exact (proj2 (Hpage _ _ Hrun)).
Defined.

(** C9. For a date field that parses, the month-day key is what follows the
    first five characters of the field, and the pretty date is the English
    name of the month, a space, and the day in two digits; every request of
    the submission asks for a year followed by that key.  The field
    2019-11-22 gives the key 11-22 and the pretty date November 22. *)
Theorem parsed_date_key_and_pretty_date
    (requests_get : http_request -> result response) (now1 now2 : datetime)
    (form : list (string * string)) (dt : datetime) :
  strptime (date_field form) = Some dt ->
  let mm_dd := slice_from 5 (date_field form) in
  let pretty := month_name (month dt) ++ " " ++ two_digits (day dt) in
  (exists pre, String.length pre = 5%nat /\ date_field form = pre ++ mm_dd)
  /\ (forall err p, parse_date err (date_field form) p = (err, Some mm_dd, pretty))
  /\ nth_error
       ["January"; "February"; "March"; "April"; "May"; "June"; "July";
        "August"; "September"; "October"; "November"; "December"]
       (Z.to_nat (month dt - 1)) = Some (month_name (month dt))
  /\ 1 <= day dt <= 31
  /\ String.length (two_digits (day dt)) = 2%nat
  /\ int (two_digits (day dt)) = Some (day dt)
  /\ (forall t ctx,
        index requests_get now1 now2 (POST form) = (t, Ok ctx) ->
        pretty_date ctx = pretty
        /\ forall r, In r (gets t) ->
             exists y, query_of r = "date:" ++ str_of_int y ++ "-" ++ mm_dd)
  /\ parse_date None "2019-11-22" "" = (None, Some "11-22", "November 22").
Proof.
  intros Hd mm_dd pretty.
  destruct (strptime_fields _ _ Hd) as (_ & Hm & Hday & _).
  pose proof (days_in_month_le (year dt) (month dt)) as Hle.
  split; [exact (proj2 (slice_from_parsed _ _ Hd))|].
  split; [intros err p; unfold parse_date; now rewrite Hd|].
  split; [exact (proj2 (month_name_full _ Hm))|].
  split; [lia|].
  split; [apply two_digits_day; lia|].
  split; [apply two_digits_day; lia|].
  split; [|reflexivity].
  intros t ctx Hi.
  destruct (read_years (start_field form) (end_field form) (year now1))
    as [[s e]|] eqn:Hy.
  - destruct (index_rendered _ _ _ _ dt s e t ctx Hd Hy Hi) as (-> & rs & _ & ->).
    split; [reflexivity|]. intros r. rewrite gets_loop_trace, in_map_iff.
    intros (y & <- & _). now exists y.
  - rewrite (index_invalid_years _ _ _ _ Hy) in Hi. unfold parse_date in Hi.
    rewrite Hd in Hi. injection Hi as <- <-. split; [reflexivity|]. intros r [].
Qed.

Lemma parsed_date_key_and_pretty_date_witness :
  (exists pre, String.length pre = 5%nat /\ "2019-11-22" = pre ++ "11-22")
  /\ (forall err p, parse_date err "2019-11-22" p = (err, Some "11-22", "November 22"))
  /\ nth_error
       ["January"; "February"; "March"; "April"; "May"; "June"; "July";
        "August"; "September"; "October"; "November"; "December"]
       (Z.to_nat (11 - 1)) = Some "November"
  /\ 1 <= 22 <= 31
  /\ String.length "22" = 2%nat
  /\ int "22" = Some 22
  /\ (pretty_date (Context None (Some sample_records) "2019-11-22" 2018 2019
                     "November 22" 2025) = "November 22"
      /\ forall r,
           In r [request_for "11-22" 2018; request_for "11-22" 2019] ->
           exists y, query_of r = "date:" ++ str_of_int y ++ "-" ++ "11-22")
  /\ parse_date None "2019-11-22" "" = (None, Some "11-22", "November 22").
Proof.
  destruct (parsed_date_key_and_pretty_date sample_catalog sample_now sample_now
              (submission "2019-11-22" "2018" "2019") (Datetime 2019 11 22))
    as (H1 & H2 & H3 & H4 & H5 & H6 & H7 & H8); [reflexivity|].
  repeat (split; [assumption|]). split; [|exact H8].
  apply (H7 [Get (request_for "11-22" 2018); Sleep 100;
             Get (request_for "11-22" 2019); Sleep 100]).
  vm_compute. reflexivity.
Defined.

(** C10. A year field left blank takes its default, 1990 for the start and
    the current year for the end, and no message is added; the years resolved
    are then the two values in order.  When a field that is not blank is not
    a number, the years resolved are 1990 and the current year, the banner
    gets the message that the years must be numbers, and the page is still
    rendered, with these years, no results and no request. *)
Theorem year_defaults_and_reset
    (requests_get : http_request -> result response) (now1 now2 : datetime)
    (form : list (string * string)) :
  let cy := year now1 in
  (forall raw default,
     forallb is_space (list_ascii_of_string raw) = true ->
     year_field (strip raw) default = Some default)
  /\ (start_field form = "" ->
      forall e err,
        year_field (end_field form) cy = Some e ->
        year_field (start_field form) 1990 = Some 1990
        /\ parse_years err (start_field form) (end_field form) cy
           = (err, Z.min 1990 e, Z.max 1990 e))
  /\ (end_field form = "" ->
      forall s err,
        year_field (start_field form) 1990 = Some s ->
        year_field (end_field form) cy = Some cy
        /\ parse_years err (start_field form) (end_field form) cy
           = (err, Z.min s cy, Z.max s cy))
  /\ (year_field (start_field form) 1990 = None
      \/ year_field (end_field form) cy = None ->
      (forall err,
         parse_years err (start_field form) (end_field form) cy
         = (Some ((if opt_truthy err
                   then match err with Some m => m ++ " | " | None => "" end
                   else "") ++ "Start/end year must be numbers."),
            1990, cy))
      /\ exists ctx message,
           index requests_get now1 now2 (POST form) = ([], Ok ctx)
           /\ start_year ctx = 1990 /\ end_year ctx = cy
           /\ results ctx = None
           /\ date_value ctx = date_field form
           /\ error ctx = Some message
           /\ substring_of "numbers" message = true).
Proof.
  intros cy. split; [|split; [|split]].
  - intros raw default H. now rewrite (strip_blank _ H).
  - intros Hs e err He.
    assert (H1990 : year_field (start_field form) 1990 = Some 1990)
      by now rewrite Hs.
    split; [exact H1990|]. unfold parse_years.
    now rewrite (read_years_fields _ _ _ 1990 e H1990 He).
  - intros He s err Hs.
    assert (Hcy : year_field (end_field form) cy = Some cy) by now rewrite He.
    split; [exact Hcy|]. unfold parse_years.
    now rewrite (read_years_fields _ _ _ s cy Hs Hcy).
  - intros H%read_years_none. split.
    + intros err. unfold parse_years. now rewrite H.
    + rewrite (index_invalid_years _ _ _ _ H). unfold parse_date.
      destruct (strptime (date_field form)); eexists _, _;
        (split; [reflexivity|]); cbn; auto 10.
Qed.

Lemma year_defaults_and_reset_witness :
  year_field (strip "  ") 1990 = Some 1990
  /\ parse_years None "" "2000" 2025 = (None, 1990, 2000)
  /\ parse_years None "2000" "" 2025 = (None, 2000, 2025)
  /\ parse_years None "" "abc" 2025
     = (Some "Start/end year must be numbers.", 1990, 2025)
  /\ exists ctx message,
       index sample_catalog sample_now sample_now
         (POST (submission "2019-11-22" "" "abc")) = ([], Ok ctx)
       /\ start_year ctx = 1990 /\ end_year ctx = 2025
       /\ results ctx = None
       /\ date_value ctx = "2019-11-22"
       /\ error ctx = Some message
       /\ substring_of "numbers" message = true.
Proof.
  destruct (year_defaults_and_reset sample_catalog sample_now sample_now
              (submission "2019-11-22" "" "2000")) as (Hblank & Hstart & _).
  destruct (year_defaults_and_reset sample_catalog sample_now sample_now
              (submission "2019-11-22" "2000" "")) as (_ & _ & Hend & _).
  destruct (year_defaults_and_reset sample_catalog sample_now sample_now
              (submission "2019-11-22" "" "abc")) as (_ & _ & _ & Hreset).
  split; [apply Hblank; reflexivity|].
  split; [apply (Hstart eq_refl 2000 None); reflexivity|].
  split; [apply (Hend eq_refl 2000 None); reflexivity|].
  destruct Hreset as [Hyears Hpage]; [right; reflexivity|].
  split; [apply (Hyears None)|exact Hpage].
Defined.

(* ================================================================= *)
(** ** The events of any run *)

(** The events of the loop, whatever the catalog answers: a request and a
    pause for some first years, then nothing, or the request of the next
    year. *)
Lemma fetch_years_events (requests_get : http_request -> result response)
    (mm_dd : string) (ys : list Z) (acc : list Release) (err : option string) :
  exists n : nat,
    (n <= List.length ys)%nat
    /\ (fst (fetch_years requests_get mm_dd ys acc err)
        = pauses mm_dd (firstn n ys)
        \/ exists y,
             nth_error ys n = Some y
             /\ fst (fetch_years requests_get mm_dd ys acc err)
                = (pauses mm_dd (firstn n ys) ++ [Get (request_for mm_dd y)])%list).
Proof.
  revert acc. induction ys as [|y ys IH]; intros acc.
  - exists 0%nat. split; [reflexivity|]. now left.
  - rewrite fetch_years_step.
    destruct (search_outcome requests_get mm_dd y) as [releases|e].
    + destruct (items <~ iter releases ;; collect y items acc) as [acc'|e].
      * destruct (IH acc') as (n & Hn & [Ht|(y' & Hy' & Ht)]);
          exists (S n); (split; [cbn; lia|]); cbn [fst firstn nth_error];
          rewrite Ht; [left|right; exists y'; split; [exact Hy'|]]; reflexivity.
      * exists 0%nat. split; [cbn; lia|]. right. exists y. now split.
    + exists 0%nat. split; [cbn; lia|]. right. exists y. now split.
Qed.

Lemma gets_pauses (mm_dd : string) (ys : list Z) :
  gets (pauses mm_dd ys) = map (request_for mm_dd) ys.
Proof.
  unfold gets, pauses. induction ys as [|y ys IH]; [reflexivity|].
  cbn. now rewrite <- IH.
Qed.

Lemma gets_app (t t' : list event) : gets (t ++ t') = (gets t ++ gets t')%list.
Proof. unfold gets. apply flat_map_app. Qed.

Lemma paced_pauses (mm_dd : string) (ys : list Z) (t : list event) :
  paced (pauses mm_dd ys ++ t) = paced t.
Proof. induction ys as [|y ys IH]; [reflexivity|]. cbn. exact IH. Qed.

Lemma length_range (a b : Z) : List.length (range a b) = Z.to_nat (b - a).
Proof. unfold range. now rewrite length_map, length_seq. Qed.

Lemma firstn_range (s : Z) (n : nat) (b : Z) :
  (n <= List.length (range s b))%nat ->
  firstn n (range s b) = range s (s + Z.of_nat n).
Proof.
  rewrite length_range. intros H.
  destruct n as [|n]; [now rewrite Z.add_0_r, (range_nil s s) by lia|].
  rewrite (range_app s (s + Z.of_nat (S n)) b) by lia.
  rewrite firstn_app, length_range.
  replace (S n - Z.to_nat (s + Z.of_nat (S n) - s))%nat with 0%nat by lia.
  rewrite firstn_all2 by (rewrite length_range; lia).
  cbn. apply app_nil_r.
Qed.

(** The years the loop is run over are at most 25. *)
Lemma clamped_span (err : option string) (s e cy : Z) :
  snd (clamp_range err s e cy) - s + 1 <= MAX_YEARS_PER_REQUEST
  /\ snd (clamp_range err s e cy) <= e.
Proof.
  unfold clamp_range, MAX_YEARS_PER_REQUEST.
  destruct (Z.ltb_spec 25 (e - s + 1)); cbn [snd]; [|lia].
  destruct (Z.ltb_spec cy (s + 25 - 1)); lia.
Qed.

(** The events of a valid submission are those of its loop. *)
Lemma index_valid_events (requests_get : http_request -> result response)
    (now1 now2 : datetime) (form : list (string * string)) (dt : datetime)
    (s e : Z) :
  strptime (date_field form) = Some dt ->
  read_years (start_field form) (end_field form) (year now1) = Some (s, e) ->
  fst (index requests_get now1 now2 (POST form))
  = fst (fetch_years requests_get (slice_from 5 (date_field form))
           (range s (snd (clamp_range None s e (year now1)) + 1)) []
           (fst (clamp_range None s e (year now1)))).
Proof.
  intros Hd Hy. rewrite (index_valid _ _ _ _ dt s e Hd Hy).
  destruct (fetch_years _ _ _ _ _) as [t [[rs err]|ex]]; cbn; [|reflexivity].
  destruct (sort_results rs); cbn; now rewrite !app_nil_r.
Qed.

(** The events of a submission with a validation error: none. *)
Lemma index_rejected_events (requests_get : http_request -> result response)
    (now1 now2 : datetime) (form : list (string * string)) :
  strptime (date_field form) = None
  \/ read_years (start_field form) (end_field form) (year now1) = None ->
  fst (index requests_get now1 now2 (POST form)) = [].
Proof.
  intros [H|H].
  - now rewrite (index_invalid_date _ _ _ _ H).
  - now rewrite (index_invalid_years _ _ _ _ H).
Qed.

Lemma firstn_next {A} (l : list A) (n : nat) (a : A) :
  nth_error l n = Some a -> firstn (S n) l = (firstn n l ++ [a])%list.
Proof.
  revert n. induction l as [|b l IH]; intros [|n]; cbn; try discriminate.
  - now intros [= ->].
  - intros H. now rewrite <- (IH n H).
Qed.

(* ================================================================= *)
(** ** Further properties of the handler *)

(** X1. Whatever the catalog answers and whatever is submitted, the requests
    of a submission are those of consecutive years in increasing order,
    starting with the start year, and there are at most
    [MAX_YEARS_PER_REQUEST] of them; when the page is rendered they stay
    within its range of years. *)
Theorem requests_are_consecutive_years
    (requests_get : http_request -> result response) (now1 now2 : datetime)
    (form : list (string * string)) :
  exists s n,
    0 <= n <= MAX_YEARS_PER_REQUEST
    /\ gets (fst (index requests_get now1 now2 (POST form)))
       = map (request_for (slice_from 5 (date_field form))) (range s (s + n))
    /\ (forall ctx,
          snd (index requests_get now1 now2 (POST form)) = Ok ctx -> 0 < n ->
          s = start_year ctx /\ s + n - 1 <= end_year ctx).
Proof.
  destruct (index_kinds now1 form) as [H|[H|(dt & s & e & Hd & Hy)]].
  - exists 0, 0. rewrite index_rejected_events by now left.
    unfold MAX_YEARS_PER_REQUEST. repeat split; try lia.
  - exists 0, 0. rewrite index_rejected_events by now right.
    unfold MAX_YEARS_PER_REQUEST. repeat split; try lia.
  - rewrite (index_valid_events _ _ _ _ dt s e Hd Hy).
    set (mm_dd := slice_from 5 (date_field form)).
    set (last := snd (clamp_range None s e (year now1))).
    assert (Hspan := proj1 (clamped_span None s e (year now1))). fold last in Hspan.
    unfold MAX_YEARS_PER_REQUEST in *.
    assert (Hpage : forall ctx,
              snd (index requests_get now1 now2 (POST form)) = Ok ctx ->
              start_year ctx = s /\ end_year ctx = last).
    { intros ctx Hctx.
      destruct (index requests_get now1 now2 (POST form)) as [t r] eqn:Hi.
      cbn in Hctx. subst r.
      destruct (index_rendered _ _ _ _ dt s e t ctx Hd Hy Hi) as (_ & rs & _ & ->).
      now split. }
    destruct (fetch_years_events requests_get mm_dd (range s (last + 1)) []
                (fst (clamp_range None s e (year now1))))
      as (n & Hn & [Ht|(y & Hnth & Ht)]); rewrite Ht.
    + exists s, (Z.of_nat n). rewrite length_range in Hn.
      split; [lia|]. split.
      * rewrite gets_pauses, firstn_range by (rewrite length_range; lia).
        reflexivity.
      * intros ctx Hctx Hpos. destruct (Hpage ctx Hctx) as [-> ->]. lia.
    + assert (Hlt : (n < List.length (range s (last + 1)))%nat)
        by (apply nth_error_Some; congruence).
      rewrite length_range in Hlt.
      exists s, (Z.of_nat (S n)). split; [lia|]. split.
      * rewrite gets_app, gets_pauses. cbn [gets flat_map app].
        rewrite <- firstn_range with (b := last + 1)
          by (rewrite length_range; lia).
        rewrite (firstn_next _ _ _ Hnth), map_app. reflexivity.
      * intros ctx Hctx Hpos. destruct (Hpage ctx Hctx) as [-> ->]. lia.
Qed.

(** X2. Whatever the catalog answers and whatever the request, a pause of
    100 ms follows every request to the catalog but, possibly, the last one,
    and the handler does nothing else to the outside. *)
Theorem requests_are_paced
    (requests_get : http_request -> result response) (now1 now2 : datetime)
    (req : request) :
  paced (fst (index requests_get now1 now2 req)) = true.
Proof.
  destruct req as [|form]; [reflexivity|].
  destruct (index_kinds now1 form) as [H|[H|(dt & s & e & Hd & Hy)]].
  - now rewrite index_rejected_events by now left.
  - now rewrite index_rejected_events by now right.
  - rewrite (index_valid_events _ _ _ _ dt s e Hd Hy).
    destruct (fetch_years_events requests_get (slice_from 5 (date_field form))
                (range s (snd (clamp_range None s e (year now1)) + 1)) []
                (fst (clamp_range None s e (year now1))))
      as (n & _ & [Ht|(y & _ & Ht)]); rewrite Ht.
    + rewrite <- (app_nil_r (pauses _ _)). now rewrite paced_pauses.
    + now rewrite paced_pauses.
Qed.

(** X3. With a catalog of well-formed documents no exception leaves the
    handler: every request whose span of years can be written (the clamp
    warning writes the span outside any [try], and an int of more than
    [int_max_str_digits] digits is not written) gets a page. *)
Theorem well_formed_catalog_always_renders
    (requests_get : http_request -> result response) (now1 now2 : datetime)
    (req : request) :
  catalog requests_get ->
  span_writable now1 req = true ->
  exists ctx, snd (index requests_get now1 now2 req) = Ok ctx.
Proof.
  intros Hc _. destruct req as [|form]; [eexists; reflexivity|].
  destruct (index_kinds now1 form) as [H|[H|(dt & s & e & Hd & Hy)]].
  - rewrite (index_invalid_date _ _ _ _ H). eexists; reflexivity.
  - rewrite (index_invalid_years _ _ _ _ H). eexists; reflexivity.
  - rewrite (index_catalog _ _ _ _ dt s e Hc Hd Hy). eexists; reflexivity.
Qed.

Lemma well_formed_catalog_always_renders_witness :
  exists ctx,
    snd (index sample_catalog sample_now sample_now
           (POST (submission "2019-11-22" "2018" "2020"))) = Ok ctx.
Proof.
  apply (well_formed_catalog_always_renders sample_catalog sample_now sample_now
           (POST (submission "2019-11-22" "2018" "2020"))).
  - exact sample_catalog_well_formed.
  - reflexivity.
Defined.

Lemma failure_message_truthy (y : Z) (e : exn) :
  str_truthy (failure_message y e) = true.
Proof. unfold failure_message. destruct (is_HTTPError e); reflexivity. Qed.

Lemma clamp_error (s e cy : Z) :
  opt_truthy (fst (clamp_range None s e cy)) = false
  <-> e - s + 1 <= MAX_YEARS_PER_REQUEST.
Proof.
  unfold clamp_range.
  destruct (Z.ltb_spec MAX_YEARS_PER_REQUEST (e - s + 1)); cbn; split;
    try discriminate; try reflexivity; lia.
Qed.

Lemma clamp_idle (err : option string) (s e cy : Z) :
  e - s + 1 <= MAX_YEARS_PER_REQUEST -> clamp_range err s e cy = (err, e).
Proof.
  intros H. unfold clamp_range.
  destruct (Z.ltb_spec MAX_YEARS_PER_REQUEST (e - s + 1)); [lia|reflexivity].
Qed.

(** X4. For a page that is rendered, the summary line is shown exactly when
    the submission passed the validation (the date parses and both year
    fields are read), also when a search failed or nothing was found; the
    table is shown exactly when, besides, a record was collected. *)
Theorem summary_and_table_shown
    (requests_get : http_request -> result response) (now1 now2 : datetime)
    (form : list (string * string)) (t : list event) (ctx : context) :
  index requests_get now1 now2 (POST form) = (t, Ok ctx) ->
  let valid :=
    strptime (date_field form) <> None
    /\ read_years (start_field form) (end_field form) (year now1) <> None in
  (shows_summary ctx = true <-> valid)
  /\ (shows_table ctx = true
      <-> valid
          /\ collected requests_get (slice_from 5 (date_field form))
               (range (start_year ctx) (end_year ctx + 1)) <> []).
Proof.
  intros Hi valid. subst valid.
  destruct (index_kinds now1 form) as [H|[H|(dt & s & e & Hd & Hy)]].
  - assert (Hnv : ~ (strptime (date_field form) <> None
                     /\ read_years (start_field form) (end_field form)
                          (year now1) <> None))
      by (intros [H1 _]; now apply H1).
    rewrite (index_invalid_date _ _ _ _ H) in Hi.
    destruct (parse_years _ _ _ _) as [[err s] e]. injection Hi as _ <-.
    cbn. split; split;
      [discriminate|intros Hv; now destruct (Hnv Hv)
      |discriminate|intros [Hv _]; now destruct (Hnv Hv)].
  - assert (Hnv : ~ (strptime (date_field form) <> None
                     /\ read_years (start_field form) (end_field form)
                          (year now1) <> None))
      by (intros [_ H1]; now apply H1).
    rewrite (index_invalid_years _ _ _ _ H) in Hi.
    destruct (parse_date _ _ _) as [[err md] pretty]. injection Hi as _ <-.
    cbn. split; split;
      [discriminate|intros Hv; now destruct (Hnv Hv)
      |discriminate|intros [Hv _]; now destruct (Hnv Hv)].
  - destruct (index_rendered _ _ _ _ dt s e t ctx Hd Hy Hi) as (_ & rs & Hs & ->).
    cbn [start_year end_year]. unfold shows_summary, shows_table. cbn [results].
    rewrite Hd, Hy. apply sort_results_perm in Hs.
    split; [split; [split; discriminate|reflexivity]|].
    split.
    + intros Hrs. split; [split; discriminate|]. intros Hnil.
      rewrite Hnil in Hs. apply Permutation_nil in Hs. now subst rs.
    + intros [_ Hne]. destruct rs; [|reflexivity].
      apply Permutation_sym, Permutation_nil in Hs. contradiction.
Qed.

Lemma summary_and_table_shown_witness :
  (shows_summary (Context (Some "HTTP error for year 1990: 503 Server Error: Service Unavailable")
                    (Some []) "2019-11-22" 1990 2014 "November 22" 2025) = true
   <-> strptime (date_field (submission "2019-11-22" "1990" "2020")) <> None
       /\ read_years (start_field (submission "2019-11-22" "1990" "2020"))
            (end_field (submission "2019-11-22" "1990" "2020")) 2025 <> None)
  /\ (shows_table (Context (Some "HTTP error for year 1990: 503 Server Error: Service Unavailable")
                     (Some []) "2019-11-22" 1990 2014 "November 22" 2025) = true
      <-> (strptime (date_field (submission "2019-11-22" "1990" "2020")) <> None
           /\ read_years (start_field (submission "2019-11-22" "1990" "2020"))
                (end_field (submission "2019-11-22" "1990" "2020")) 2025 <> None)
          /\ collected outage "11-22" (range 1990 (2014 + 1)) <> []).
Proof.
  apply (summary_and_table_shown outage sample_now sample_now
           (submission "2019-11-22" "1990" "2020")
           [Get (request_for "11-22" 1990)]).
  vm_compute. reflexivity.
Defined.

(** X5. For a page that is rendered, there is no banner exactly when the
    submission passed the validation, its span is at most
    [MAX_YEARS_PER_REQUEST] years, and no search of the range failed. *)
Theorem banner_shown
    (requests_get : http_request -> result response) (now1 now2 : datetime)
    (form : list (string * string)) (t : list event) (ctx : context) :
  index requests_get now1 now2 (POST form) = (t, Ok ctx) ->
  (shows_error ctx = false
   <-> exists dt s e,
         strptime (date_field form) = Some dt
         /\ read_years (start_field form) (end_field form) (year now1) = Some (s, e)
         /\ e - s + 1 <= MAX_YEARS_PER_REQUEST
         /\ failure requests_get (slice_from 5 (date_field form))
              (range s (e + 1)) = None).
Proof.
  intros Hi.
  destruct (index_kinds now1 form) as [H|[H|(dt & s & e & Hd & Hy)]].
  - rewrite (index_invalid_date _ _ _ _ H) in Hi. unfold parse_years in Hi.
    split.
    + destruct (read_years _ _ _) as [[s e]|]; injection Hi as _ <-; discriminate.
    + intros (dt & s & e & Hd & _). congruence.
  - rewrite (index_invalid_years _ _ _ _ H) in Hi. unfold parse_date in Hi.
    split.
    + destruct (strptime _); injection Hi as _ <-; discriminate.
    + intros (dt & s & e & _ & Hy & _). congruence.
  - destruct (index_rendered _ _ _ _ dt s e t ctx Hd Hy Hi) as (_ & rs & _ & ->).
    unfold shows_error. cbn [error]. unfold loop_error. split.
    + intros Hb. exists dt, s, e. split; [exact Hd|]. split; [exact Hy|].
      destruct (failure _ _ _) as [[y ex]|] eqn:Hf.
      * cbn in Hb. now rewrite failure_message_truthy in Hb.
      * apply clamp_error in Hb. split; [exact Hb|].
        rewrite clamp_idle in Hf by exact Hb. exact Hf.
    + intros (dt' & s' & e' & Hd' & Hy' & Hspan & Hf).
      rewrite Hy in Hy'. injection Hy' as <- <-.
      rewrite clamp_idle by exact Hspan. cbn [fst snd]. now rewrite Hf.
Qed.

Lemma banner_shown_witness :
  shows_error (Context None (Some sample_records) "2019-11-22" 2018 2019
                 "November 22" 2025) = false
  <-> exists dt s e,
        strptime (date_field (submission "2019-11-22" "2018" "2019")) = Some dt
        /\ read_years (start_field (submission "2019-11-22" "2018" "2019"))
             (end_field (submission "2019-11-22" "2018" "2019")) 2025 = Some (s, e)
        /\ e - s + 1 <= MAX_YEARS_PER_REQUEST
        /\ failure sample_catalog
             (slice_from 5 (date_field (submission "2019-11-22" "2018" "2019")))
             (range s (e + 1)) = None.
Proof.
  apply (banner_shown sample_catalog sample_now sample_now
           (submission "2019-11-22" "2018" "2019")
           [Get (request_for "11-22" 2018); Sleep 100;
            Get (request_for "11-22" 2019); Sleep 100]).
  vm_compute. reflexivity.
Defined.

(** X6. The way without failure: for a submission that passed the validation,
    with a span of at most [MAX_YEARS_PER_REQUEST] years, and a catalog of
    well-formed documents whose searches all succeed, one request is sent for
    every year from the start to the end, in increasing order, each followed
    by the pause; the page has no banner, the years as resolved, and the
    records of all these years. *)
Theorem every_year_is_searched
    (requests_get : http_request -> result response) (now1 now2 : datetime)
    (form : list (string * string)) (dt : datetime) (s e : Z) :
  catalog requests_get ->
  strptime (date_field form) = Some dt ->
  read_years (start_field form) (end_field form) (year now1) = Some (s, e) ->
  e - s + 1 <= MAX_YEARS_PER_REQUEST ->
  let mm_dd := slice_from 5 (date_field form) in
  (forall y, s <= y <= e -> exists v, search_outcome requests_get mm_dd y = Ok v) ->
  exists rs,
    index requests_get now1 now2 (POST form)
    = (pauses mm_dd (range s (e + 1)),
       Ok (Context None (Some rs) (date_field form) s e (strftime_B_d dt)
             (year now1)))
    /\ Permutation rs (flat_map (records_of requests_get mm_dd) (range s (e + 1))).
Proof.
  intros Hc Hd Hy Hspan mm_dd Hall.
  exists (sort_by_key (flat_map (records_of requests_get mm_dd) (range s (e + 1)))).
  split; [|symmetry; apply sort_by_key_perm].
  rewrite (index_catalog _ _ _ _ dt s e Hc Hd Hy), clamp_idle by exact Hspan.
  cbn [fst snd]. fold mm_dd.
  destruct (visited_all requests_get mm_dd (range s (e + 1))) as [Hv Hf].
  { intros y Hin%in_range. apply Hall. lia. }
  unfold loop_trace, loop_error, collected, pauses. rewrite Hv, Hf.
  now rewrite app_nil_r.
Qed.

Lemma every_year_is_searched_witness :
  exists rs,
    index sample_catalog sample_now sample_now
      (POST (submission "2019-11-22" "2018" "2019"))
    = (pauses "11-22" (range 2018 (2019 + 1)),
       Ok (Context None (Some rs) "2019-11-22" 2018 2019 "November 22" 2025))
    /\ Permutation rs
         (flat_map (records_of sample_catalog "11-22") (range 2018 (2019 + 1))).
Proof.
  apply (every_year_is_searched sample_catalog sample_now sample_now
           (submission "2019-11-22" "2018" "2019") (Datetime 2019 11 22)
           2018 2019).
  - exact sample_catalog_well_formed.
  - reflexivity.
  - reflexivity.
  - vm_compute. discriminate.
  - intros y Hy. assert (H : y = 2018 \/ y = 2019) by lia.
    destruct H as [-> | ->]; eexists; vm_compute; reflexivity.
Defined.

Lemma collect_length (y : Z) (items : list value) (rs : list Release) :
  collect y items [] = Ok rs -> List.length rs = List.length items.
Proof.
  revert rs. induction items as [|r items IH]; cbn [collect]; intros rs.
  - now intros [= <-].
  - destruct (release_of y r) as [x|e]; cbn [rbind]; [|discriminate].
    rewrite collect_append. destruct (collect y items []) as [rs'|e]; [|discriminate].
    intros [= <-]. cbn. now rewrite (IH rs').
Qed.

(** A loop that ended without an exception took a record of every entry of
    the years it visited. *)
Lemma fetch_years_sizes (requests_get : http_request -> result response)
    (mm_dd : string) (ys : list Z) (acc : list Release) (err : option string)
    (t : list event) (p : list Release * option string) :
  fetch_years requests_get mm_dd ys acc err = (t, Ok p) ->
  List.length (collected requests_get mm_dd ys)
  = list_sum (map (answer_size requests_get mm_dd) (visited requests_get mm_dd ys)).
Proof.
  unfold collected. revert acc t. induction ys as [|y ys IH]; intros acc t.
  - reflexivity.
  - rewrite fetch_years_step. cbn [visited].
    destruct (search_outcome requests_get mm_dd y) as [releases|e] eqn:Ho;
      [|reflexivity].
    cbn [rbind]. destruct (iter releases) as [items|e] eqn:Hit; [|discriminate].
    cbn [rbind]. rewrite collect_append.
    destruct (collect y items []) as [rs|e] eqn:Hrs; [|discriminate].
    destruct (fetch_years requests_get mm_dd ys (acc ++ rs)%list err) as [t' r] eqn:Hf.
    cbn [fst snd]. intros [= <- ->].
    assert (Hy : List.length (records_of requests_get mm_dd y)
                 = answer_size requests_get mm_dd y).
    { unfold records_of, year_records, answer_size. rewrite Ho. cbn [rbind].
      rewrite Hit. cbn [rbind]. rewrite Hrs. now apply (collect_length y). }
    cbn [flat_map map list_sum]. now rewrite length_app, (IH _ _ Hf), Hy.
Qed.

(** X7. The page holds one record for every entry of the answers of the
    years searched before the first failure: no entry is dropped and none
    is merged with another. *)
Theorem one_record_per_entry
    (requests_get : http_request -> result response) (now1 now2 : datetime)
    (form : list (string * string)) (t : list event) (ctx : context)
    (rs : list Release) :
  index requests_get now1 now2 (POST form) = (t, Ok ctx) ->
  results ctx = Some rs ->
  let mm_dd := slice_from 5 (date_field form) in
  List.length rs
  = list_sum (map (answer_size requests_get mm_dd)
                (visited requests_get mm_dd
                   (range (start_year ctx) (end_year ctx + 1)))).
Proof.
  intros Hi Hrs mm_dd.
  destruct (index_kinds now1 form) as [H|[H|(dt & s & e & Hd & Hy)]].
  - rewrite (index_invalid_date _ _ _ _ H) in Hi. exfalso.
    destruct (parse_years _ _ _ _) as [[err s] e]. injection Hi as _ <-.
    discriminate.
  - rewrite (index_invalid_years _ _ _ _ H) in Hi. exfalso.
    destruct (parse_date _ _ _) as [[err md] pretty]. injection Hi as _ <-.
    discriminate.
  - destruct (index_rendered _ _ _ _ dt s e t ctx Hd Hy Hi) as (_ & rs' & Hs & ->).
    cbn [results start_year end_year] in *. injection Hrs as ->.
    apply sort_results_perm, Permutation_length in Hs. rewrite <- Hs.
    rewrite (index_valid _ _ _ _ dt s e Hd Hy) in Hi.
    apply bind_ok in Hi as (t1 & p & t2 & Hf & _). fold mm_dd in Hf.
    exact (fetch_years_sizes _ _ _ _ _ _ _ Hf).
Qed.

Lemma one_record_per_entry_witness :
  List.length sample_records
  = list_sum (map (answer_size sample_catalog "11-22")
                (visited sample_catalog "11-22" (range 2018 (2020 + 1)))).
Proof.
  apply (one_record_per_entry sample_catalog sample_now sample_now
           (submission "2019-11-22" "2018" "2020")
           [Get (request_for "11-22" 2018); Sleep 100;
            Get (request_for "11-22" 2019); Sleep 100;
            Get (request_for "11-22" 2020)]
           (Context
              (Some "HTTP error for year 2020: 503 Server Error: Service Unavailable")
              (Some sample_records) "2019-11-22" 2018 2020 "November 22" 2025)
           sample_records).
  - vm_compute. reflexivity.
  - reflexivity.
Defined.

(** X8. The search sends exactly one request and does nothing else, whatever
    comes of it: a GET to [API_BASE] with the query [date:<year>-<mm_dd>],
    the JSON format, the limit as text, the [User-Agent] header and a
    timeout of 30 seconds. *)
Theorem search_sends_one_request
    (requests_get : http_request -> result response)
    (year : Z) (mm_dd : string) (limit : Z) :
  fst (search_releases_for_date requests_get year mm_dd limit)
  = [Get (Request "https://musicbrainz.org/ws/2/release"
            [("query", "date:" ++ str_of_int year ++ "-" ++ mm_dd);
             ("fmt", "json"); ("limit", str_of_int limit)]
            [("User-Agent", "EricMusicDateFinder/1.0 (eric.s.jaffe@gmail.com)")]
            30)].
Proof.
  unfold search_releases_for_date, bind, emit, lift.
  destruct (requests_get _) as [resp|e]; cbn; [|reflexivity].
  destruct (raise_for_status resp); cbn; [|reflexivity].
  destruct (json resp) as [data|e]; cbn; [|reflexivity].
  destruct (get data "releases" (VList [])); reflexivity.
Qed.

(** X9. Every way the search of a year can fail ends the loop with the
    records so far and a banner for that year: an exception of the request
    itself, an exception of the status check (whatever the body), a body that
    is not JSON, and a JSON body that is not an object, for which the banner
    says that the value has no attribute get. *)
Theorem search_failures_end_the_loop
    (requests_get : http_request -> result response) (mm_dd : string)
    (y : Z) (ys : list Z) (acc : list Release) (err : option string) :
  let stopped e :=
    fetch_years requests_get mm_dd (y :: ys) acc err
    = ([Get (request_for mm_dd y)], Ok (acc, Some (failure_message y e))) in
  (forall e, requests_get (request_for mm_dd y) = Raised e -> stopped e)
  /\ (forall resp e,
        requests_get (request_for mm_dd y) = Ok resp ->
        raise_for_status resp = Raised e -> stopped e)
  /\ (forall resp e,
        requests_get (request_for mm_dd y) = Ok resp ->
        raise_for_status resp = Ok tt -> json resp = Raised e -> stopped e)
  /\ (forall resp data,
        requests_get (request_for mm_dd y) = Ok resp ->
        raise_for_status resp = Ok tt -> json resp = Ok data ->
        (forall kv, data <> VDict kv) ->
        stopped (Exn AttributeError
                   ("'" ++ type_name data ++ "' object has no attribute 'get'"))
        /\ failure_message y
             (Exn AttributeError
                ("'" ++ type_name data ++ "' object has no attribute 'get'"))
           = "Error for year " ++ str_of_int y ++ ": '" ++ type_name data
             ++ "' object has no attribute 'get'").
Proof.
  intros stopped. subst stopped. cbv beta.
  split; [|split; [|split]].
  - intros e Hr. rewrite fetch_years_step, search_outcome_eq, Hr. reflexivity.
  - intros resp e Hr Hs. rewrite fetch_years_step, search_outcome_eq, Hr.
    cbn [rbind]. now rewrite Hs.
  - intros resp e Hr Hs Hj. rewrite fetch_years_step, search_outcome_eq, Hr.
    cbn [rbind]. rewrite Hs. cbn [rbind]. now rewrite Hj.
  - intros resp data Hr Hs Hj Hdata. split; [|reflexivity].
    rewrite fetch_years_step, search_outcome_eq, Hr.
    cbn [rbind]. rewrite Hs. cbn [rbind]. rewrite Hj. cbn [rbind].
    destruct data as [| | | | |kv]; try reflexivity. now destruct (Hdata kv).
Qed.

Lemma search_failures_end_the_loop_witness :
  fetch_years odd_catalog "11-22" [2019; 2020] [] None
  = ([Get (request_for "11-22" 2019)],
     Ok ([], Some "Error for year 2019: 'list' object has no attribute 'get'")).
Proof.
  destruct (search_failures_end_the_loop odd_catalog "11-22" 2019 [2020] [] None)
    as (_ & _ & _ & Hbody).
  destruct (Hbody (Response (Ok tt) (Ok (VList []))) (VList [])
              eq_refl eq_refl eq_refl) as [Hstop Hmsg];
    [intros kv; discriminate|].
  rewrite Hstop. reflexivity.
Defined.

(** X10. An answer that is an object without releases counts as an answer
    without entries: the year gives no record and no banner, and the loop
    goes on to the next year after the pause. *)
Theorem answer_without_releases_is_empty
    (requests_get : http_request -> result response) (mm_dd : string)
    (y : Z) (ys : list Z) (acc : list Release) (err : option string)
    (resp : response) (kv : list (string * value)) :
  requests_get (request_for mm_dd y) = Ok resp ->
  raise_for_status resp = Ok tt ->
  json resp = Ok (VDict kv) ->
  lookup "releases" kv = None ->
  search_outcome requests_get mm_dd y = Ok (VList [])
  /\ records_of requests_get mm_dd y = []
  /\ fetch_years requests_get mm_dd (y :: ys) acc err
     = (Get (request_for mm_dd y) :: Sleep 100
          :: fst (fetch_years requests_get mm_dd ys acc err),
        snd (fetch_years requests_get mm_dd ys acc err)).
Proof.
  intros Hr Hs Hj Hk.
  assert (Ho : search_outcome requests_get mm_dd y = Ok (VList [])).
  { rewrite search_outcome_eq, Hr. cbn [rbind]. rewrite Hs. cbn [rbind].
    rewrite Hj. cbn [rbind get]. now rewrite Hk. }
  split; [exact Ho|]. split.
  - unfold records_of, year_records. now rewrite Ho.
  - rewrite fetch_years_step, Ho. reflexivity.
Qed.

Lemma answer_without_releases_is_empty_witness :
  search_outcome odd_catalog "11-22" 2018 = Ok (VList [])
  /\ records_of odd_catalog "11-22" 2018 = []
  /\ fetch_years odd_catalog "11-22" [2018; 2019] [] None
     = (Get (request_for "11-22" 2018) :: Sleep 100
          :: fst (fetch_years odd_catalog "11-22" [2019] [] None),
        snd (fetch_years odd_catalog "11-22" [2019] [] None)).
Proof.
  apply (answer_without_releases_is_empty odd_catalog "11-22" 2018 [2019] [] None
           (Response (Ok tt) (Ok (VDict [("count", VInt 0)])))
           [("count", VInt 0)]); reflexivity.
Defined.

(** X11. The record loop is outside the [try]: when the search of the first
    year of a valid submission succeeds with releases that cannot be iterated
    (null, a number, a boolean), the exception leaves the handler after that
    one request and no page is rendered. *)
Theorem releases_that_are_not_iterable_escape
    (requests_get : http_request -> result response) (now1 now2 : datetime)
    (form : list (string * string)) (dt : datetime) (s e : Z)
    (releases : value) (ex : exn) :
  strptime (date_field form) = Some dt ->
  read_years (start_field form) (end_field form) (year now1) = Some (s, e) ->
  s <= snd (clamp_range None s e (year now1)) ->
  let mm_dd := slice_from 5 (date_field form) in
  search_outcome requests_get mm_dd s = Ok releases ->
  iter releases = Raised ex ->
  index requests_get now1 now2 (POST form)
  = ([Get (request_for mm_dd s)], Raised ex)
  /\ ex = Exn TypeError ("'" ++ type_name releases ++ "' object is not iterable")
  /\ (releases = VNone \/ (exists b, releases = VBool b)
      \/ exists z, releases = VInt z).
Proof.
  intros Hd Hy Hlast mm_dd Ho Hit. split; [|split].
  - rewrite (index_valid _ _ _ _ dt s e Hd Hy). fold mm_dd.
    rewrite (range_cons s) by lia. rewrite fetch_years_step, Ho. cbn [rbind].
    rewrite Hit. reflexivity.
  - destruct releases; cbn in Hit; try discriminate; now injection Hit as <-.
  - destruct releases; cbn in Hit; try discriminate; eauto.
Qed.

Lemma releases_that_are_not_iterable_escape_witness :
  index odd_catalog sample_now sample_now
    (POST (submission "2019-11-22" "2020" "2020"))
  = ([Get (request_for "11-22" 2020)],
     Raised (Exn TypeError "'NoneType' object is not iterable"))
  /\ Exn TypeError "'NoneType' object is not iterable"
     = Exn TypeError ("'" ++ type_name VNone ++ "' object is not iterable")
  /\ (VNone = VNone \/ (exists b, VNone = VBool b) \/ exists z, VNone = VInt z).
Proof.
  apply (releases_that_are_not_iterable_escape odd_catalog sample_now sample_now
           (submission "2019-11-22" "2020" "2020") (Datetime 2019 11 22)
           2020 2020 VNone
           (Exn TypeError "'NoneType' object is not iterable")).
  - reflexivity.
  - reflexivity.
  - vm_compute. discriminate.
  - reflexivity.
  - reflexivity.
Defined.

(** X12. The record loop takes an entry without an exception exactly when
    the entry is an object whose artist-credit is not a non-empty list, or is
    one whose first credit is an object, or a string or a list that does not
    hold the text name; any other entry (a value that is not an object, a
    first credit that is null, a number or a boolean, or a string or list
    holding name) raises. *)
Theorem entry_gives_a_record (y : Z) (r : value) :
  (exists x, release_of y r = Ok x) <-> safe_entry r = true.
Proof.
  unfold release_of, safe_entry.
  destruct r as [| | | | |kv]; cbn [get rbind field];
    try (split; [intros [x Hx]; discriminate|discriminate]).
  generalize (match lookup "artist-credit" kv with Some v => v | None => VNone end).
  intros ac.
  destruct ac as [|[|]|[|p|p]|[|c s]|[|ac0 l]|[|p l]]; cbn;
    try (split; [reflexivity|intros _; eexists; reflexivity]).
  destruct ac0 as [| | |s| |ckv]; cbn;
    try (split; [intros [x Hx]; discriminate|discriminate]).
  - destruct (substring_of "name" s); cbn;
      (split; [intros [x Hx]; (discriminate || reflexivity)
              |intros H; (discriminate || (eexists; reflexivity))]).
  - destruct (existsb _ _); cbn;
      (split; [intros [x Hx]; (discriminate || reflexivity)
              |intros H; (discriminate || (eexists; reflexivity))]).
  - split; [reflexivity|intros _].
    destruct (lookup "name" ckv); cbn; eexists; reflexivity.
Qed.

(* ================================================================= *)
(** ** Dates written and read *)

Lemma digit_char_facts (k : Z) :
  0 <= k <= 9 ->
  is_digit (digit_char k) = true /\ digit_value (digit_char k) = k
  /\ is_space (digit_char k) = false
  /\ (code (digit_char k) =? 48)%nat = (k =? 0).
Proof.
  intros H. assert (Hk : In k (range 0 10)) by (apply in_range; lia).
  cbn in Hk. repeat (destruct Hk as [<-|Hk]; [repeat split; reflexivity|]).
  destruct Hk.
Qed.

Lemma list_ascii_of_string_app (a b : string) :
  list_ascii_of_string (a ++ b)
  = (list_ascii_of_string a ++ list_ascii_of_string b)%list.
Proof. induction a as [|c a IH]; cbn; congruence. Qed.

(** A year of four digits, as [str] writes it. *)
Lemma str_of_int_four_digits (y : Z) :
  1000 <= y <= 9999 ->
  str_of_int y = two_digits (y / 100) ++ two_digits (y mod 100).
Proof.
  intros H.
  assert (Hall : forallb (fun y => (str_of_int y
                                    =? two_digits (y / 100) ++ two_digits (y mod 100))%string)
                   (range 1000 10000) = true) by (vm_compute; reflexivity).
  rewrite forallb_forall in Hall. apply String.eqb_eq, Hall, in_range. lia.
Qed.

(** A month and a day in two digits each are read back. *)
Lemma first_month_two_digits (m d : Z) :
  1 <= m <= 12 -> 1 <= d <= 31 ->
  first_month (month_alternatives
                 (list_ascii_of_string (two_digits m ++ "-" ++ two_digits d)))
  = Some (m, d, []).
Proof.
  intros Hm Hd.
  assert (Hall : forallb (fun m =>
                   forallb (fun d =>
                     match first_month (month_alternatives
                             (list_ascii_of_string
                                (two_digits m ++ "-" ++ two_digits d))) with
                     | Some (m', d', []) => (m' =? m) && (d' =? d)
                     | _ => false
                     end) (range 1 32)) (range 1 13) = true)
    by (vm_compute; reflexivity).
  rewrite forallb_forall in Hall.
  assert (Hm' := Hall m (proj2 (in_range 1 13 m) ltac:(lia))).
  rewrite forallb_forall in Hm'.
  assert (Hd' := Hm' d (proj2 (in_range 1 32 d) ltac:(lia))).
  destruct (first_month _) as [[[m' d'] [|]]|]; try discriminate.
  apply andb_prop in Hd' as [->%Z.eqb_eq ->%Z.eqb_eq]. reflexivity.
Qed.

(** A year of four digits, a hyphen, and a tail that holds a month and a
    day: the date of that year, when the year has that day. *)
Lemma strptime_year_and_tail (y : Z) (l : list ascii) (m d : Z) :
  1000 <= y <= 9999 ->
  first_month (month_alternatives l) = Some (m, d, []) ->
  strptime (str_of_int y ++ "-" ++ string_of_list_ascii l)
  = if d <=? days_in_month y m then Some (Datetime y m d) else None.
Proof.
  intros Hy Hl. rewrite (str_of_int_four_digits y Hy).
  unfold strptime.
  rewrite !list_ascii_of_string_app, list_ascii_of_string_of_list_ascii.
  cbn [two_digits list_ascii_of_string app].
  destruct (digit_char_facts (y / 100 / 10)) as (-> & V1 & _); [Z.div_mod_to_equations; lia|].
  destruct (digit_char_facts (y / 100 mod 10)) as (-> & V2 & _); [Z.div_mod_to_equations; lia|].
  destruct (digit_char_facts (y mod 100 / 10)) as (-> & V3 & _); [Z.div_mod_to_equations; lia|].
  destruct (digit_char_facts (y mod 100 mod 10)) as (-> & V4 & _); [Z.div_mod_to_equations; lia|].
  cbn [andb]. change (code "-" =? 45)%nat with true. cbv iota.
  rewrite Hl, V1, V2, V3, V4.
  replace (1000 * (y / 100 / 10) + 100 * (y / 100 mod 10)
           + 10 * (y mod 100 / 10) + y mod 100 mod 10) with y
    by (Z.div_mod_to_equations; lia).
  replace (1 <=? y) with true by (symmetry; apply Z.leb_le; lia).
  reflexivity.
Qed.

Lemma strptime_tail (s : string) (dt : datetime) :
  strptime s = Some dt ->
  exists l,
    slice_from 5 s = string_of_list_ascii l
    /\ first_month (month_alternatives l) = Some (month dt, day dt, []).
Proof.
  unfold strptime, slice_from.
  destruct (list_ascii_of_string s) as [|y1 [|y2 [|y3 [|y4 [|h l]]]]];
    try discriminate.
  destruct (_ && _); [|discriminate].
  destruct (first_month (month_alternatives l)) as [[[m d] [|]]|] eqn:Hm;
    try discriminate.
  destruct (_ && _); [|discriminate]. intros Heq.
  match type of Heq with Some ?x = _ => assert (dt = x) by congruence end.
  subst dt. exists l. now split.
Qed.

(** X13. The query of a year of four digits names the submitted month and
    day in that year: read as a date it is that day of that year, and it is
    no date of the calendar exactly when the day submitted is 29 February
    and the year is not a leap year; the request is sent all the same. *)
Theorem query_names_the_day_in_the_year
    (form : list (string * string)) (dt : datetime) (y : Z) :
  strptime (date_field form) = Some dt ->
  1000 <= y <= 9999 ->
  let mm_dd := slice_from 5 (date_field form) in
  query_of (request_for mm_dd y) = "date:" ++ str_of_int y ++ "-" ++ mm_dd
  /\ strptime (str_of_int y ++ "-" ++ mm_dd)
     = (if day dt <=? days_in_month y (month dt)
        then Some (Datetime y (month dt) (day dt)) else None)
  /\ (strptime (str_of_int y ++ "-" ++ mm_dd) = None
      <-> month dt = 2 /\ day dt = 29 /\ is_leap y = false).
Proof.
  intros Hd Hy mm_dd.
  destruct (strptime_tail _ _ Hd) as (l & Hl & Hm).
  destruct (strptime_fields _ _ Hd) as (_ & _ & Hday & _).
  assert (Hs : strptime (str_of_int y ++ "-" ++ mm_dd)
               = (if day dt <=? days_in_month y (month dt)
                  then Some (Datetime y (month dt) (day dt)) else None)).
  { unfold mm_dd. rewrite Hl. now apply strptime_year_and_tail. }
  split; [reflexivity|]. split; [exact Hs|]. rewrite Hs.
  destruct (Z.leb_spec (day dt) (days_in_month y (month dt))) as [Hle|Hgt].
  - split; [discriminate|]. intros (Hm2 & Hd29 & Hleap).
    rewrite Hm2, Hd29 in Hle. unfold days_in_month in Hle.
    rewrite Hleap in Hle. lia.
  - split; [intros _|reflexivity].
    unfold days_in_month in Hday, Hgt.
    destruct (month dt) as [|[[[|[]|]|[[]|[]|]|]|[[[]|[]|]|[[]|[]|]|]|]|];
      try lia.
    destruct (is_leap y), (is_leap (year dt)); try lia; repeat split; lia.
Qed.

Lemma query_names_the_day_in_the_year_witness :
  query_of (request_for "02-29" 2019) = "date:" ++ str_of_int 2019 ++ "-" ++ "02-29"
  /\ strptime (str_of_int 2019 ++ "-" ++ "02-29")
     = (if 29 <=? days_in_month 2019 2 then Some (Datetime 2019 2 29) else None)
  /\ (strptime (str_of_int 2019 ++ "-" ++ "02-29") = None
      <-> 2 = 2 /\ 29 = 29 /\ is_leap 2019 = false).
Proof.
  apply (query_names_the_day_in_the_year (submission "2020-02-29" "2019" "2020")
           (Datetime 2020 2 29) 2019).
  - reflexivity.
  - lia.
Defined.

(** X14. The date the form is filled with on the first load is read back
    when it is submitted unchanged: it parses to the day of the clock, and
    its key is the month and the day in two digits each. *)
Theorem prefilled_date_is_read_back
    (requests_get : http_request -> result response) (now1 now2 : datetime) :
  calendar_day now2 ->
  exists ctx0,
    index requests_get now1 now2 GET = ([], Ok ctx0)
    /\ forall form,
         form_get form "date" = date_value ctx0 ->
         strptime (date_field form) = Some now2
         /\ slice_from 5 (date_field form)
            = two_digits (month now2) ++ "-" ++ two_digits (day now2).
Proof.
  intros (Hy & Hm & Hd). eexists. split; [reflexivity|].
  cbn [date_value]. intros form Hform. unfold date_field. rewrite Hform.
  destruct now2 as [y m d]. cbn [year month day] in *.
  pose proof (days_in_month_le y m) as Hle.
  destruct (digit_char_facts (y / 100 / 10)) as (_ & _ & S1 & _);
    [Z.div_mod_to_equations; lia|].
  destruct (digit_char_facts (d mod 10)) as (_ & _ & S2 & _);
    [Z.div_mod_to_equations; lia|].
  assert (Hstrip : strip (strftime_Y_m_d (Datetime y m d))
                   = str_of_int y ++ "-"
                     ++ string_of_list_ascii
                          (list_ascii_of_string (two_digits m ++ "-" ++ two_digits d))).
  { rewrite (str_of_int_four_digits y Hy).
    unfold strip, rstrip, strftime_Y_m_d. cbn [year month day].
    cbn [two_digits String.append list_ascii_of_string lstrip].
    rewrite S1. cbn [rev app lstrip]. rewrite S2. reflexivity. }
  rewrite Hstrip. split.
  - rewrite (strptime_year_and_tail y _ m d Hy (first_month_two_digits m d Hm ltac:(lia))).
    now rewrite (proj2 (Z.leb_le _ _) (proj2 Hd)).
  - rewrite (str_of_int_four_digits y Hy). reflexivity.
Qed.

Lemma prefilled_date_is_read_back_witness :
  exists ctx0,
    index sample_catalog sample_now sample_now GET = ([], Ok ctx0)
    /\ forall form,
         form_get form "date" = date_value ctx0 ->
         strptime (date_field form) = Some sample_now
         /\ slice_from 5 (date_field form)
            = two_digits (month sample_now) ++ "-" ++ two_digits (day sample_now).
Proof.
  apply (prefilled_date_is_read_back sample_catalog sample_now sample_now).
  unfold calendar_day. cbn. lia.
Defined.

(** X15. A start year after the current year with a span over the maximum:
    the clamp caps the end year at the current year, below the start year;
    no request is sent, and the page shows the warning, an empty result and
    a range that runs backwards. *)
Theorem start_after_current_year_gives_an_empty_range
    (requests_get : http_request -> result response) (now1 now2 : datetime)
    (form : list (string * string)) (dt : datetime) (s e : Z) :
  strptime (date_field form) = Some dt ->
  read_years (start_field form) (end_field form) (year now1) = Some (s, e) ->
  MAX_YEARS_PER_REQUEST < e - s + 1 ->
  year now1 < s ->
  exists ctx,
    index requests_get now1 now2 (POST form) = ([], Ok ctx)
    /\ results ctx = Some [] /\ shows_summary ctx = true /\ shows_table ctx = false
    /\ start_year ctx = s /\ end_year ctx = year now1
    /\ end_year ctx < start_year ctx
    /\ error ctx = Some (clamp_warning (e - s + 1) s (year now1) (year now1)).
Proof.
  intros Hd Hy Hspan Hcy.
  rewrite (index_valid _ _ _ _ dt s e Hd Hy).
  assert (Hclamp : clamp_range None s e (year now1)
                   = (Some (clamp_warning (e - s + 1) s (year now1) (year now1)),
                      year now1)).
  { unfold clamp_range. rewrite (proj2 (Z.ltb_lt _ _) Hspan).
    unfold MAX_YEARS_PER_REQUEST in *.
    rewrite (proj2 (Z.ltb_lt (year now1) (s + 25 - 1))) by lia. reflexivity. }
  rewrite Hclamp. cbn [fst snd]. rewrite range_nil by lia.
  eexists. split; [reflexivity|]. cbn. repeat split. exact Hcy.
Qed.

Lemma start_after_current_year_gives_an_empty_range_witness :
  exists ctx,
    index sample_catalog sample_now sample_now
      (POST (submission "2019-11-22" "3000" "3100")) = ([], Ok ctx)
    /\ results ctx = Some [] /\ shows_summary ctx = true /\ shows_table ctx = false
    /\ start_year ctx = 3000 /\ end_year ctx = 2025
    /\ end_year ctx < start_year ctx
    /\ error ctx = Some (clamp_warning (3100 - 3000 + 1) 3000 2025 2025).
Proof.
  apply (start_after_current_year_gives_an_empty_range sample_catalog sample_now
           sample_now (submission "2019-11-22" "3000" "3100")
           (Datetime 2019 11 22) 3000 3100).
  - reflexivity.
  - reflexivity.
  - reflexivity.
  - reflexivity.
Defined.

(* ================================================================= *)
(** ** Numbers written and read *)

Ltac digit_step :=
  cbn [NilEmpty.string_of_uint list_ascii_of_string int_digits];
  match goal with
  | |- context [is_digit ?c] =>
      let b := eval vm_compute in (is_digit c) in
      change (is_digit c) with b; cbv iota;
      let v := eval vm_compute in (digit_value c) in
      change (digit_value c) with v
  end.

Lemma int_digits_acc (d : Decimal.uint) (acc : positive) :
  int_digits (list_ascii_of_string (NilEmpty.string_of_uint d)) (Z.pos acc) true
  = Some (Z.pos (Pos.of_uint_acc d acc)).
Proof.
  revert acc. induction d as [|d IH|d IH|d IH|d IH|d IH|d IH|d IH|d IH|d IH|d IH];
    intros acc; [reflexivity|..]; digit_step; cbn [Pos.of_uint_acc];
    rewrite <- IH; f_equal; lia.
Qed.

Lemma int_digits_uint (d : Decimal.uint) :
  int_digits (list_ascii_of_string (NilEmpty.string_of_uint d)) 0 true
  = Some (Z.of_N (Pos.of_uint d)).
Proof.
  induction d as [|d IH|d IH|d IH|d IH|d IH|d IH|d IH|d IH|d IH|d IH];
    [reflexivity|..]; digit_step; cbn [Pos.of_uint];
    [exact IH|..]; apply (int_digits_acc d).
Qed.

Lemma digits_are_not_spaces (d : Decimal.uint) :
  Forall (fun c => is_space c = false)
    (list_ascii_of_string (NilEmpty.string_of_uint d)).
Proof. induction d; cbn; constructor; (reflexivity || assumption). Qed.

Lemma strip_no_spaces (l : list ascii) :
  Forall (fun c => is_space c = false) l -> rstrip (lstrip l) = l.
Proof.
  assert (Hl : forall l, Forall (fun c => is_space c = false) l -> lstrip l = l).
  { intros [|c l'] H; [reflexivity|]. cbn. inversion H; subst.
    now match goal with E : is_space c = false |- _ => rewrite E end. }
  intros H. rewrite (Hl _ H). unfold rstrip.
  rewrite Hl by now apply Forall_rev. apply rev_involutive.
Qed.

Lemma int_digits_flag (c : ascii) (l : list ascii) (acc : Z) :
  is_digit c = true ->
  int_digits (c :: l) acc false = int_digits (c :: l) acc true.
Proof. intros H. cbn [int_digits]. now rewrite H. Qed.

(** [int(str(z))] is [z]. *)
Lemma int_str_of_int (z : Z) : int (str_of_int z) = Some z.
Proof.
  assert (Hpos : forall p,
            int (NilEmpty.string_of_uint (Pos.to_uint p)) = Some (Z.pos p)
            /\ int (String "-" (NilEmpty.string_of_uint (Pos.to_uint p)))
               = Some (Z.neg p)).
  { intros p. unfold int. cbn [list_ascii_of_string].
    rewrite (strip_no_spaces (_ :: _))
      by (constructor; [reflexivity|apply digits_are_not_spaces]).
    rewrite strip_no_spaces by apply digits_are_not_spaces.
    pose proof (int_digits_uint (Pos.to_uint p)) as Hd.
    rewrite DecimalPos.Unsigned.of_to in Hd.
    pose proof (Unsigned.to_uint_nonnil p) as Hn.
    destruct (Pos.to_uint p) as [|d|d|d|d|d|d|d|d|d|d] eqn:Hp;
      [contradiction|..];
      (split;
       [cbn [NilEmpty.string_of_uint list_ascii_of_string];
        match goal with
        | |- context [(code ?c =? 45)%nat] =>
            change (code c =? 45)%nat with false;
            change (code c =? 43)%nat with false; cbv iota
        end; cbn [NilEmpty.string_of_uint list_ascii_of_string] in Hd;
        rewrite int_digits_flag by reflexivity; exact Hd
       |change (code "-" =? 45)%nat with true; cbv iota;
        cbn [NilEmpty.string_of_uint list_ascii_of_string] in Hd |- *;
        rewrite int_digits_flag by reflexivity; now rewrite Hd]). }
  unfold str_of_int. destruct z as [|p|p]; [reflexivity| |].
  - cbn [Z.to_int NilZero.string_of_int NilZero.string_of_uint].
    pose proof (Unsigned.to_uint_nonnil p) as Hn.
    destruct (Pos.to_uint p) eqn:Hp; [contradiction|..];
      unfold NilZero.string_of_uint; rewrite <- Hp; apply Hpos.
  - cbn [Z.to_int NilZero.string_of_int NilZero.string_of_uint].
    pose proof (Unsigned.to_uint_nonnil p) as Hn.
    destruct (Pos.to_uint p) eqn:Hp; [contradiction|..];
      unfold NilZero.string_of_uint; rewrite <- Hp; apply Hpos.
Qed.

Lemma strip_str_of_int (z : Z) : strip (str_of_int z) = str_of_int z.
Proof.
  unfold strip. rewrite strip_no_spaces; [apply string_of_list_ascii_of_string|].
  unfold str_of_int.
  destruct z as [|p|p]; cbn [Z.to_int NilZero.string_of_int];
    [repeat constructor| |].
  - unfold NilZero.string_of_uint.
    destruct (Pos.to_uint p) eqn:Hp; [repeat constructor|..];
      rewrite <- Hp; apply digits_are_not_spaces.
  - cbn [list_ascii_of_string]. constructor; [reflexivity|].
    unfold NilZero.string_of_uint.
    destruct (Pos.to_uint p) eqn:Hp; [repeat constructor|..];
      rewrite <- Hp; apply digits_are_not_spaces.
Qed.

Lemma str_of_int_truthy (z : Z) : str_truthy (str_of_int z) = true.
Proof.
  pose proof (int_str_of_int z) as H. unfold str_truthy.
  destruct (String.eqb_spec (str_of_int z) "") as [E|E]; [|reflexivity].
  rewrite E in H. discriminate H.
Qed.

(** A displayed year read back by [int(s) if s else default]. *)
Lemma year_input_value_read (y default : Z) :
  year_field (strip (year_input_value y)) default
  = Some (if y =? 0 then default else y).
Proof.
  unfold year_input_value. destruct (y =? 0); [reflexivity|].
  rewrite strip_str_of_int. unfold year_field.
  rewrite str_of_int_truthy. apply int_str_of_int.
Qed.

(** X16. The two year inputs of a page, posted back as the template filled
    them ([value="{{ start_year or '' }}"]), are read as the same two years,
    in ascending order, and add no message; the year zero is the exception:
    its input is left empty, and is read back as the default of the field. *)
Theorem displayed_years_are_read_back
    (error : option string) (s e current_year : Z) :
  parse_years error (strip (year_input_value s)) (strip (year_input_value e))
    current_year
  = let s' := if s =? 0 then 1990 else s in
    let e' := if e =? 0 then current_year else e in
    (error, Z.min s' e', Z.max s' e').
Proof.
  unfold parse_years.
  rewrite (read_years_fields _ _ current_year _ _
             (year_input_value_read s 1990)
             (year_input_value_read e current_year)).
  reflexivity.
Qed.

(** X17. A submission whose date field is missing, empty or made of white
    space only is rejected as an invalid date: nothing is requested, the page
    has no results, and its date input is rendered empty (the default date
    of a first load is not put back). *)
Theorem blank_date_is_rejected
    (requests_get : http_request -> result response) (now1 now2 : datetime)
    (form : list (string * string)) :
  forallb is_space (list_ascii_of_string (form_get form "date")) = true ->
  exists ctx,
    index requests_get now1 now2 (POST form) = ([], Ok ctx)
    /\ results ctx = None
    /\ date_value ctx = ""
    /\ pretty_date ctx = ""
    /\ shows_error ctx = true
    /\ exists rest, error ctx = Some (invalid_date ++ rest).
Proof.
  intros H.
  assert (Hd : date_field form = "") by (apply strip_blank; exact H).
  assert (Hp : strptime (date_field form) = None) by (rewrite Hd; reflexivity).
  rewrite (index_invalid_date _ _ _ _ Hp). rewrite Hd. unfold parse_years.
  destruct (read_years _ _ _) as [[s e]|]; eexists; (split; [reflexivity|]);
    cbn [results date_value pretty_date shows_error error]; repeat split.
  - now exists "".
  - now exists (" | " ++ invalid_years).
Qed.

Lemma blank_date_is_rejected_witness :
  exists ctx,
    index sample_catalog sample_now sample_now (POST [("start_year", "2018")])
    = ([], Ok ctx)
    /\ results ctx = None
    /\ date_value ctx = ""
    /\ pretty_date ctx = ""
    /\ shows_error ctx = true
    /\ exists rest, error ctx = Some (invalid_date ++ rest).
Proof.
  apply (blank_date_is_rejected sample_catalog sample_now sample_now
           [("start_year", "2018")]).
  reflexivity.
Defined.
